(** * Fukui-BI: the data core of the income-statement dashboard

    A shallow embedding of [src/data_processor.py] (class [DataProcessor],
    the spec's Aggregator) and [src/data_loader.py] (class [DataLoader], the
    spec's Loader), and the properties of their queries.

    Python values are modelled as follows.
    - [int] columns (department, report and account codes) are [Z]; the code
      only compares and sorts them.
    - [float] is the kernel's binary64 [float]: [+], [/], [*] and the
      comparisons are the IEEE 754 operations Python performs.
    - [str] is the list of its Unicode code points ([str]); column labels,
      which the program only uses as keys, are Rocq [string] literals.
    - a method is a function of the object's state that returns either an
      exception or a value, together with the state it leaves behind. *)

From Stdlib Require Import String Ascii List ZArith NArith Bool Floats Lia.
From Stdlib Require Import Permutation Sorted.
Import ListNotations.

Set Implicit Arguments.

(** ** Python strings *)

Definition str := list N.

(** [u "2025/07"] is the Python string written with these ASCII characters. *)
Definition u (s : string) : str :=
  map N_of_ascii (list_ascii_of_string s).

Fixpoint str_compare (a b : str) : comparison :=
  match a, b with
  | [], [] => Eq
  | [], _ :: _ => Lt
  | _ :: _, [] => Gt
  | x :: a', y :: b' =>
      match N.compare x y with
      | Eq => str_compare a' b'
      | c => c
      end
  end.

Definition str_eqb (a b : str) : bool :=
  match str_compare a b with Eq => true | _ => false end.

Definition str_leb (a b : str) : bool :=
  match str_compare a b with Gt => false | _ => true end.

(** ** Exceptions and methods *)

Inductive exn : Type :=
| IndexError
| KeyError
| ZeroDivisionError
| AttributeError
| ParserError.

(** A method on an object of state [St] that returns an [A]. *)
Definition M (St A : Type) : Type := St -> (exn + A) * St.

Definition ret {St A} (a : A) : M St A := fun s => (inr a, s).

Definition raise {St A} (e : exn) : M St A := fun s => (inl e, s).

Definition bind {St A B} (m : M St A) (k : A -> M St B) : M St B :=
  fun s =>
    match m s with
    | (inr a, s') => k a s'
    | (inl e, s') => (inl e, s')
    end.

(** [try: body except Exception as e: handler(e)] *)
Definition try_except {St A} (body : M St A) (handler : exn -> M St A) : M St A :=
  fun s =>
    match body s with
    | (inr a, s') => (inr a, s')
    | (inl e, s') => handler e s'
    end.

Declare Scope py_scope.
Delimit Scope py_scope with py.
Notation "x <- m ;; k" := (bind m (fun x => k))
  (at level 61, m at next level, right associativity) : py_scope.
Notation "' pat <- m ;; k" := (bind m (fun x => match x with pat => k end))
  (at level 61, pat pattern, m at next level, right associativity) : py_scope.
Notation "m ;;; k" := (bind m (fun _ => k))
  (at level 61, right associativity) : py_scope.
Open Scope py_scope.

(** [for x in l: acc = body(acc, x)] *)
Fixpoint for_each {St A B} (l : list A) (body : B -> A -> M St B) (acc : B) : M St B :=
  match l with
  | [] => ret acc
  | x :: l' => acc' <- body acc x ;; for_each l' body acc'
  end.

(** ** Python numbers

    [x / y] on floats raises on a zero divisor; a conditional expression
    such as [(a / b * 100) if b != 0 else 0] yields a float on one branch
    and the int [0] on the other. *)

Inductive number : Type :=
| Int (z : Z)
| Float (f : float).

Definition truediv {St} (x y : float) : M St float :=
  if PrimFloat.eqb y 0 then raise ZeroDivisionError else ret (x / y)%float.

(** ** The fragment of pandas the program uses

    A frame is its column labels and its rows, in index order.  Rows are
    records: the labels a frame carries matter only where the program
    builds a frame ([pd.DataFrame(results)], [df[cols]]) or tests
    [col in df.columns]. *)

Module Pandas.

Record DataFrame (A : Type) : Type := mkDataFrame {
  columns : list string;
  values : list A
}.

Arguments mkDataFrame {A} _ _.

(** [df.empty] / [series.empty] *)
Definition empty {A} (d : DataFrame A) : bool :=
  match values d with [] => true | _ => false end.

Definition series_empty {A} (s : list A) : bool :=
  match s with [] => true | _ => false end.

(** [df[mask]] where [mask] is computed row by row *)
Definition loc {A} (mask : A -> bool) (d : DataFrame A) : DataFrame A :=
  mkDataFrame (columns d) (filter mask (values d)).

(** [df[col]] *)
Definition col {A B} (proj : A -> B) (d : DataFrame A) : list B :=
  map proj (values d).

(** [df[labels]]: the frame of the selected columns *)
Definition select {A B} (labels : list string) (proj : A -> B) (d : DataFrame A)
  : DataFrame B :=
  mkDataFrame labels (map proj (values d)).

(** [df.copy()] *)
Definition copy {A} (d : DataFrame A) : DataFrame A := d.

(** [series.iloc[0]] *)
Definition iloc0 {St A} (s : list A) : M St A :=
  match s with
  | [] => raise IndexError
  | x :: _ => ret x
  end.

(** [series.unique()]: the distinct values in order of first appearance *)
Fixpoint unique_from {A} (eqb : A -> A -> bool) (seen : list A) (s : list A) : list A :=
  match s with
  | [] => []
  | x :: s' =>
      if existsb (eqb x) seen then unique_from eqb seen s'
      else x :: unique_from eqb (x :: seen) s'
  end.

Definition unique {A} (eqb : A -> A -> bool) (s : list A) : list A :=
  unique_from eqb [] s.

(** [df.drop_duplicates()]: every row that equals an earlier row is
    dropped *)
Definition drop_duplicates {A} (eqb : A -> A -> bool) (d : DataFrame A)
  : DataFrame A :=
  mkDataFrame (columns d) (unique eqb (values d)).

(** [series.dropna()] *)
Fixpoint dropna {A} (s : list (option A)) : list A :=
  match s with
  | [] => []
  | Some x :: s' => x :: dropna s'
  | None :: s' => dropna s'
  end.

(** [pd.DataFrame(columns=labels)] *)
Definition empty_frame {A} (labels : list string) : DataFrame A :=
  mkDataFrame labels [].

(** The keys of the dicts a result list is made of. *)
Class Keys (A : Type) : Type := keys : list string.

(** [pd.DataFrame(results)] for a list of dicts that all have the keys of
    [A]: the labels are taken from the dicts, so an empty list gives a
    frame without columns. *)
Definition of_records {A} `{Keys A} (results : list A) : DataFrame A :=
  mkDataFrame (match results with [] => [] | _ :: _ => keys end) results.

(** A stable sort by insertion.  [sorted] orders its input like it;
    [sort_values] does on the keys it tells apart, and how it orders rows
    with equal keys plays no part in the properties below. *)
Fixpoint insert {A} (leb : A -> A -> bool) (x : A) (l : list A) : list A :=
  match l with
  | [] => [x]
  | y :: l' => if leb x y then x :: y :: l' else y :: insert leb x l'
  end.

Fixpoint sorted {A} (leb : A -> A -> bool) (l : list A) : list A :=
  match l with
  | [] => []
  | x :: l' => insert leb x (sorted leb l')
  end.

(** [df.sort_values(by)] for keys without nulls, ascending *)
Definition sort_values {A} (leb : A -> A -> bool) (d : DataFrame A) : DataFrame A :=
  mkDataFrame (columns d) (sorted leb (values d)).

(** [df.sort_values(by, ascending=False)] on a float column: the rows
    whose key is not NaN are reversed, sorted ascending and reversed again;
    the rows whose key is NaN follow ([na_position='last']). *)
Definition sort_values_descending {A} (key : A -> float) (d : DataFrame A)
  : DataFrame A :=
  let non_nans := filter (fun r => negb (is_nan (key r))) (values d) in
  let nans := filter (fun r => is_nan (key r)) (values d) in
  mkDataFrame (columns d)
    (rev (sorted (fun a b => PrimFloat.leb (key a) (key b)) (rev non_nans)) ++ nans).

(** [series.sum()]: null entries are skipped ([skipna=True]) and the
    others are added, here from the first to the last.  (On a long column
    pandas adds in blocks; the result is the same whenever the partial
    sums are exact, as for amounts in whole yen below 2^53.) *)
Definition sum (s : list float) : float :=
  fold_left (fun acc x => if is_nan x then acc else (acc + x)%float) s 0%float.

End Pandas.

Import Pandas.

(** ** Ledger rows

    One row of the unified frame, with the columns the two classes read or
    write: 部課ｺｰﾄﾞ, 部課名, 出力帳票, 科目ｺｰﾄﾞ, 科目名, 前残高, 借方, 貸方,
    残高, 開始年月, [source_file] and [year_month].  The other columns of
    the CSV schema are carried along untouched and are left out. *)

Record Row : Type := mkRow {
  c_dept_code : Z;              (* 部課ｺｰﾄﾞ *)
  c_dept_name : str;            (* 部課名 *)
  c_report_type : Z;            (* 出力帳票 *)
  c_account_code : Z;           (* 科目ｺｰﾄﾞ *)
  c_account_name : str;         (* 科目名 *)
  c_prior_balance : float;      (* 前残高 *)
  c_debit : float;              (* 借方 *)
  c_credit : float;             (* 貸方 *)
  c_balance : float;            (* 残高 *)
  c_start_period : option str;  (* 開始年月 *)
  c_source_file : str;
  c_year_month : option str
}.

Definition Ledger : Type := DataFrame Row.

(** [series == year_month] on the [year_month] column: a null cell is
    different from every string. *)
Definition period_is (year_month : str) (r : Row) : bool :=
  match c_year_month r with
  | Some p => str_eqb p year_month
  | None => false
  end.

(** ** DataProcessor (src/data_processor.py) *)

Module Aggregator.

Record DataProcessor : Type := mkDataProcessor {
  df : Ledger
}.

Definition Method (A : Type) : Type := M DataProcessor A.

(** [self.df] *)
Definition self_df : Method Ledger := fun self => (inr (df self), self).

Definition ACCOUNT_CODES : list (string * Z) :=
  [ ("revenue", 4199); ("cost_of_sales", 5399); ("gross_profit", 5400);
    ("sga", 6299); ("operating_income", 7000); ("non_op_revenue", 7199);
    ("non_op_expense", 7599); ("ordinary_income", 8000);
    ("extra_income", 8199); ("extra_loss", 8299); ("pretax_income", 8300);
    ("net_income", 9000);
    ("material_cost", 5419); ("labor_cost", 5439); ("expense_cost", 5469);
    ("mfg_cost", 5299) ]%string%Z.

(** [d[key]] on a dict *)
Fixpoint getitem {St} (d : list (string * Z)) (key : string) : M St Z :=
  match d with
  | [] => raise KeyError
  | (k, v) :: d' => if String.eqb k key then ret v else getitem d' key
  end.

(** The value columns [get_account_value] documents. *)
Inductive value_column : Type :=
| balance         (* 残高 *)
| debit           (* 借方 *)
| credit          (* 貸方 *)
| prior_balance.  (* 前残高 *)

Definition value_of (c : value_column) (r : Row) : float :=
  match c with
  | balance => c_balance r
  | debit => c_debit r
  | credit => c_credit r
  | prior_balance => c_prior_balance r
  end.

Definition filter_by_department (dept_code : option Z) : Method Ledger :=
  match dept_code with
  | None => self_df
  | Some code =>
      d <- self_df ;;
      ret (loc (fun r => Z.eqb (c_dept_code r) code) d)
  end.

Definition filter_by_period (year_month : option str) : Method Ledger :=
  match year_month with
  | None => self_df
  | Some ym =>
      d <- self_df ;;
      ret (loc (period_is ym) d)
  end.

Definition get_main_accounts (df : option Ledger) : Method Ledger :=
  target <- match df with Some d => ret d | None => self_df end ;;
  ret (loc (fun r => Z.eqb (c_report_type r) 0) target).

Definition get_cost_breakdown (df : option Ledger) : Method Ledger :=
  target <- match df with Some d => ret d | None => self_df end ;;
  ret (loc (fun r => Z.eqb (c_report_type r) 1) target).

Definition get_account_value (df : Ledger) (account_code : Z)
    (value_column : value_column) : Method float :=
  let row := loc (fun r => Z.eqb (c_account_code r) account_code) df in
  if empty row then ret 0%float
  else iloc0 (col (value_of value_column) row).

Record KPI : Type := mkKPI {
  revenue : float;
  cost_of_sales : float;
  gross_profit : float;
  sga : float;
  operating_income : float;
  ordinary_income : float;
  net_income : float;
  gross_margin : number;
  op_margin : number;
  ord_margin : number;
  net_margin : number
}.

(** The seven running totals of [calculate_kpi]. *)
Definition totals : Type :=
  (float * float * float * float * float * float * float)%type.

Definition calculate_kpi (dept_code : option Z) (year_month : option str)
  : Method KPI :=
  d <- self_df ;;
  let filtered := copy d in
  let filtered :=
    match dept_code with
    | Some code => loc (fun r => Z.eqb (c_dept_code r) code) filtered
    | None => filtered
    end in
  let filtered :=
    match year_month with
    | Some ym => loc (period_is ym) filtered
    | None => filtered
    end in
  main_df <- get_main_accounts (Some filtered) ;;
  '(revenue, cost_of_sales, gross_profit, sga, operating_income,
    ordinary_income, net_income) <-
    match dept_code with
    | None =>
        for_each (unique Z.eqb (col c_dept_code main_df))
          (fun (acc : totals) code =>
             let '(revenue, cost_of_sales, gross_profit, sga, operating_income,
                   ordinary_income, net_income) := acc in
             let dept_df := loc (fun r => Z.eqb (c_dept_code r) code) main_df in
             k <- getitem ACCOUNT_CODES "revenue" ;;
             v <- get_account_value dept_df k balance ;;
             let revenue := (revenue + v)%float in
             k <- getitem ACCOUNT_CODES "cost_of_sales" ;;
             v <- get_account_value dept_df k balance ;;
             let cost_of_sales := (cost_of_sales + v)%float in
             k <- getitem ACCOUNT_CODES "gross_profit" ;;
             v <- get_account_value dept_df k balance ;;
             let gross_profit := (gross_profit + v)%float in
             k <- getitem ACCOUNT_CODES "sga" ;;
             v <- get_account_value dept_df k balance ;;
             let sga := (sga + v)%float in
             k <- getitem ACCOUNT_CODES "operating_income" ;;
             v <- get_account_value dept_df k balance ;;
             let operating_income := (operating_income + v)%float in
             k <- getitem ACCOUNT_CODES "ordinary_income" ;;
             v <- get_account_value dept_df k balance ;;
             let ordinary_income := (ordinary_income + v)%float in
             k <- getitem ACCOUNT_CODES "net_income" ;;
             v <- get_account_value dept_df k balance ;;
             let net_income := (net_income + v)%float in
             ret (revenue, cost_of_sales, gross_profit, sga, operating_income,
                  ordinary_income, net_income))
          (0, 0, 0, 0, 0, 0, 0)%float
    | Some _ =>
        k <- getitem ACCOUNT_CODES "revenue" ;;
        revenue <- get_account_value main_df k balance ;;
        k <- getitem ACCOUNT_CODES "cost_of_sales" ;;
        cost_of_sales <- get_account_value main_df k balance ;;
        k <- getitem ACCOUNT_CODES "gross_profit" ;;
        gross_profit <- get_account_value main_df k balance ;;
        k <- getitem ACCOUNT_CODES "sga" ;;
        sga <- get_account_value main_df k balance ;;
        k <- getitem ACCOUNT_CODES "operating_income" ;;
        operating_income <- get_account_value main_df k balance ;;
        k <- getitem ACCOUNT_CODES "ordinary_income" ;;
        ordinary_income <- get_account_value main_df k balance ;;
        k <- getitem ACCOUNT_CODES "net_income" ;;
        net_income <- get_account_value main_df k balance ;;
        ret (revenue, cost_of_sales, gross_profit, sga, operating_income,
             ordinary_income, net_income)
    end ;;
  gross_margin <-
    (if negb (PrimFloat.eqb revenue 0)
     then q <- truediv gross_profit revenue ;; ret (Float (q * 100))
     else ret (Int 0)) ;;
  op_margin <-
    (if negb (PrimFloat.eqb revenue 0)
     then q <- truediv operating_income revenue ;; ret (Float (q * 100))
     else ret (Int 0)) ;;
  ord_margin <-
    (if negb (PrimFloat.eqb revenue 0)
     then q <- truediv ordinary_income revenue ;; ret (Float (q * 100))
     else ret (Int 0)) ;;
  net_margin <-
    (if negb (PrimFloat.eqb revenue 0)
     then q <- truediv net_income revenue ;; ret (Float (q * 100))
     else ret (Int 0)) ;;
  ret {| revenue := revenue;
         cost_of_sales := cost_of_sales;
         gross_profit := gross_profit;
         sga := sga;
         operating_income := operating_income;
         ordinary_income := ordinary_income;
         net_income := net_income;
         gross_margin := gross_margin;
         op_margin := op_margin;
         ord_margin := ord_margin;
         net_margin := net_margin |}.

(** One dict of [get_department_breakdown]'s result list. *)
Record DeptRecord : Type := mkDeptRecord {
  b_dept_code : Z;               (* 部課ｺｰﾄﾞ *)
  b_dept_name : str;             (* 部課名 *)
  b_revenue : float;             (* 売上高 *)
  b_gross_profit : float;        (* 売上総利益 *)
  b_operating_income : float;    (* 営業利益 *)
  b_ordinary_income : float;     (* 経常利益 *)
  b_gross_margin : number;       (* 売上総利益率 *)
  b_op_margin : number           (* 営業利益率 *)
}.

#[export] Instance DeptRecord_keys : Keys DeptRecord :=
  [ "部課ｺｰﾄﾞ"; "部課名"; "売上高"; "売上総利益"; "営業利益"; "経常利益";
    "売上総利益率"; "営業利益率" ]%string.

Definition get_department_breakdown (year_month : option str)
  : Method (DataFrame DeptRecord) :=
  d <- self_df ;;
  let filtered := copy d in
  let filtered :=
    match year_month with
    | Some ym => loc (period_is ym) filtered
    | None => filtered
    end in
  main_df <- get_main_accounts (Some filtered) ;;
  results <-
    for_each (sorted Z.leb (unique Z.eqb (col c_dept_code main_df)))
      (fun (results : list DeptRecord) code =>
         let dept_df := loc (fun r => Z.eqb (c_dept_code r) code) main_df in
         dept_name <-
           (if negb (empty dept_df) then iloc0 (col c_dept_name dept_df)
            else ret []) ;;
         k <- getitem ACCOUNT_CODES "revenue" ;;
         revenue <- get_account_value dept_df k balance ;;
         k <- getitem ACCOUNT_CODES "gross_profit" ;;
         gross_profit <- get_account_value dept_df k balance ;;
         k <- getitem ACCOUNT_CODES "operating_income" ;;
         operating_income <- get_account_value dept_df k balance ;;
         k <- getitem ACCOUNT_CODES "ordinary_income" ;;
         ordinary_income <- get_account_value dept_df k balance ;;
         gross_margin <-
           (if negb (PrimFloat.eqb revenue 0)
            then q <- truediv gross_profit revenue ;; ret (Float (q * 100))
            else ret (Int 0)) ;;
         op_margin <-
           (if negb (PrimFloat.eqb revenue 0)
            then q <- truediv operating_income revenue ;; ret (Float (q * 100))
            else ret (Int 0)) ;;
         ret (results ++
              [ {| b_dept_code := code;
                   b_dept_name := dept_name;
                   b_revenue := revenue;
                   b_gross_profit := gross_profit;
                   b_operating_income := operating_income;
                   b_ordinary_income := ordinary_income;
                   b_gross_margin := gross_margin;
                   b_op_margin := op_margin |} ]))
      [] ;;
  ret (of_records results).

Record CostStructure : Type := mkCostStructure {
  material_cost : float;
  labor_cost : float;
  expense : float;
  mfg_cost : float
}.

Definition get_cost_structure (dept_code : option Z) (year_month : option str)
  : Method CostStructure :=
  d <- self_df ;;
  let filtered := copy d in
  let filtered :=
    match dept_code with
    | Some code => loc (fun r => Z.eqb (c_dept_code r) code) filtered
    | None => filtered
    end in
  let filtered :=
    match year_month with
    | Some ym => loc (period_is ym) filtered
    | None => filtered
    end in
  cost_df <- get_cost_breakdown (Some filtered) ;;
  main_df <- get_main_accounts (Some filtered) ;;
  '(material_cost, labor_cost, expense_cost, mfg_cost) <-
    match dept_code with
    | None =>
        '(material_cost, labor_cost, expense_cost) <-
          for_each (unique Z.eqb (col c_dept_code cost_df))
            (fun (acc : float * float * float) code =>
               let '(material_cost, labor_cost, expense_cost) := acc in
               let dept_cost := loc (fun r => Z.eqb (c_dept_code r) code) cost_df in
               k <- getitem ACCOUNT_CODES "material_cost" ;;
               v <- get_account_value dept_cost k balance ;;
               let material_cost := (material_cost + v)%float in
               k <- getitem ACCOUNT_CODES "labor_cost" ;;
               v <- get_account_value dept_cost k balance ;;
               let labor_cost := (labor_cost + v)%float in
               k <- getitem ACCOUNT_CODES "expense_cost" ;;
               v <- get_account_value dept_cost k balance ;;
               let expense_cost := (expense_cost + v)%float in
               ret (material_cost, labor_cost, expense_cost))
            (0, 0, 0)%float ;;
        mfg_cost <-
          for_each (unique Z.eqb (col c_dept_code main_df))
            (fun (mfg_cost : float) code =>
               let dept_main := loc (fun r => Z.eqb (c_dept_code r) code) main_df in
               k <- getitem ACCOUNT_CODES "mfg_cost" ;;
               v <- get_account_value dept_main k balance ;;
               ret (mfg_cost + v)%float)
            0%float ;;
        ret (material_cost, labor_cost, expense_cost, mfg_cost)
    | Some _ =>
        k <- getitem ACCOUNT_CODES "material_cost" ;;
        material_cost <- get_account_value cost_df k balance ;;
        k <- getitem ACCOUNT_CODES "labor_cost" ;;
        labor_cost <- get_account_value cost_df k balance ;;
        k <- getitem ACCOUNT_CODES "expense_cost" ;;
        expense_cost <- get_account_value cost_df k balance ;;
        k <- getitem ACCOUNT_CODES "mfg_cost" ;;
        mfg_cost <- get_account_value main_df k balance ;;
        ret (material_cost, labor_cost, expense_cost, mfg_cost)
    end ;;
  ret {| material_cost := material_cost;
         labor_cost := labor_cost;
         expense := expense_cost;
         mfg_cost := mfg_cost |}.

(** One row of [get_detail_data]'s projection [filtered[display_cols]]. *)
Record DetailRow : Type := mkDetailRow {
  t_dept_name : str;          (* 部課名 *)
  t_account_name : str;       (* 科目名 *)
  t_prior_balance : float;    (* 前残高 *)
  t_debit : float;            (* 借方 *)
  t_credit : float;           (* 貸方 *)
  t_balance : float           (* 残高 *)
}.

Definition display_cols : list string :=
  [ "部課名"; "科目名"; "前残高"; "借方"; "貸方"; "残高" ]%string.

Definition display_row (r : Row) : DetailRow :=
  {| t_dept_name := c_dept_name r;
     t_account_name := c_account_name r;
     t_prior_balance := c_prior_balance r;
     t_debit := c_debit r;
     t_credit := c_credit r;
     t_balance := c_balance r |}.

(** The order of [sort_values(['部課名', '科目名'])]. *)
Definition by_dept_then_account (a b : DetailRow) : bool :=
  match str_compare (t_dept_name a) (t_dept_name b) with
  | Lt => true
  | Gt => false
  | Eq => str_leb (t_account_name a) (t_account_name b)
  end.

Definition get_detail_data (dept_code : option Z) (year_month : option str)
    (output_type : Z) : Method (DataFrame DetailRow) :=
  d <- self_df ;;
  let filtered := copy d in
  let filtered :=
    match dept_code with
    | Some code => loc (fun r => Z.eqb (c_dept_code r) code) filtered
    | None => filtered
    end in
  let filtered :=
    match year_month with
    | Some ym => loc (period_is ym) filtered
    | None => filtered
    end in
  let filtered := loc (fun r => Z.eqb (c_report_type r) output_type) filtered in
  let result := copy (select display_cols display_row filtered) in
  let result := sort_values by_dept_then_account result in
  ret result.

(** One dict of [get_sga_breakdown]'s result list. *)
Record SgaItem : Type := mkSgaItem {
  s_account_code : Z;      (* 科目ｺｰﾄﾞ *)
  s_account_name : str;    (* 科目名 *)
  s_amount : float         (* 金額 *)
}.

#[export] Instance SgaItem_keys : Keys SgaItem :=
  [ "科目ｺｰﾄﾞ"; "科目名"; "金額" ]%string.

Definition get_sga_breakdown (dept_code : option Z) (year_month : option str)
  : Method (DataFrame SgaItem) :=
  d <- self_df ;;
  let filtered := copy d in
  let filtered :=
    match dept_code with
    | Some code => loc (fun r => Z.eqb (c_dept_code r) code) filtered
    | None => filtered
    end in
  let filtered :=
    match year_month with
    | Some ym => loc (period_is ym) filtered
    | None => filtered
    end in
  main_df <- get_main_accounts (Some filtered) ;;
  let sga_df :=
    loc (fun r => Z.leb 6000 (c_account_code r) && Z.ltb (c_account_code r) 6299)
        main_df in
  results <-
    for_each (unique Z.eqb (col c_account_code sga_df))
      (fun (results : list SgaItem) code =>
         let item_df := loc (fun r => Z.eqb (c_account_code r) code) sga_df in
         name <-
           (if negb (empty item_df) then iloc0 (col c_account_name item_df)
            else ret []) ;;
         let total := sum (col c_balance item_df) in
         if negb (PrimFloat.eqb total 0)
         then ret (results ++
                   [ {| s_account_code := code;
                        s_account_name := name;
                        s_amount := total |} ])
         else ret results)
      [] ;;
  let result_df := of_records results in
  let result_df :=
    if negb (empty result_df) then sort_values_descending s_amount result_df
    else result_df in
  ret result_df.

(** One dict of [get_cost_breakdown_by_dept]'s result list. *)
Record CostRecord : Type := mkCostRecord {
  k_dept_code : Z;       (* 部課ｺｰﾄﾞ *)
  k_dept_name : str;     (* 部課名 *)
  k_material : float;    (* 材料費 *)
  k_labor : float;       (* 労務費 *)
  k_expense : float;     (* 経費 *)
  k_mfg : float          (* 製造原価 *)
}.

#[export] Instance CostRecord_keys : Keys CostRecord :=
  [ "部課ｺｰﾄﾞ"; "部課名"; "材料費"; "労務費"; "経費"; "製造原価" ]%string.

Definition get_cost_breakdown_by_dept (year_month : option str)
  : Method (DataFrame CostRecord) :=
  d <- self_df ;;
  let filtered := copy d in
  let filtered :=
    match year_month with
    | Some ym => loc (period_is ym) filtered
    | None => filtered
    end in
  cost_df <- get_cost_breakdown (Some filtered) ;;
  main_df <- get_main_accounts (Some filtered) ;;
  results <-
    for_each (sorted Z.leb (unique Z.eqb (col c_dept_code cost_df)))
      (fun (results : list CostRecord) code =>
         let dept_cost := loc (fun r => Z.eqb (c_dept_code r) code) cost_df in
         let dept_main := loc (fun r => Z.eqb (c_dept_code r) code) main_df in
         dept_name <-
           (if negb (empty dept_cost) then iloc0 (col c_dept_name dept_cost)
            else ret []) ;;
         k <- getitem ACCOUNT_CODES "material_cost" ;;
         material <- get_account_value dept_cost k balance ;;
         k <- getitem ACCOUNT_CODES "labor_cost" ;;
         labor <- get_account_value dept_cost k balance ;;
         k <- getitem ACCOUNT_CODES "expense_cost" ;;
         expense <- get_account_value dept_cost k balance ;;
         k <- getitem ACCOUNT_CODES "mfg_cost" ;;
         mfg <- get_account_value dept_main k balance ;;
         ret (results ++
              [ {| k_dept_code := code;
                   k_dept_name := dept_name;
                   k_material := material;
                   k_labor := labor;
                   k_expense := expense;
                   k_mfg := mfg |} ]))
      [] ;;
  ret (of_records results).

End Aggregator.

(** ** DataLoader (src/data_loader.py) *)

Module Loader.

(** A cell of a monetary column as [pd.read_csv] delivers it: a number
    (NaN for a blank cell) or, in a column that did not parse as numbers,
    its text. *)
Inductive cell : Type :=
| Number (f : float)
| Text (s : str).

(** One row of the frame [pd.read_csv] returns for a file. *)
Record RawRow : Type := mkRawRow {
  raw_dept_code : Z;
  raw_dept_name : str;
  raw_report_type : Z;
  raw_account_code : Z;
  raw_account_name : str;
  raw_prior_balance : cell;
  raw_debit : cell;
  raw_credit : cell;
  raw_balance : cell;
  raw_start_period : option str
}.

(** A path in the data folder: its name, and what [pd.read_csv] makes of
    its content with the dtypes [load_file] asks for. *)
Record Path : Type := mkPath {
  name : str;
  read_csv : exn + DataFrame RawRow
}.

Record DataLoader : Type := mkDataLoader {
  _df : option Ledger;
  _loaded_files : list str
}.

(** What [print] wrote. *)
Inductive line : Type :=
| warning (filename : str) (e : exn).

(** The loader, the data folder it points to ([None] while the folder does
    not exist) and the standard output. *)
Record World : Type := mkWorld {
  self : DataLoader;
  data_folder : option (list Path);
  stdout : list line
}.

Definition Method (A : Type) : Type := M World A.

Definition get_df : Method (option Ledger) :=
  fun w => (inr (_df (self w)), w).

Definition set_df (d : option Ledger) : Method unit :=
  fun w =>
    (inr tt,
     mkWorld (mkDataLoader d (_loaded_files (self w))) (data_folder w) (stdout w)).

Definition get_loaded_files : Method (list str) :=
  fun w => (inr (_loaded_files (self w)), w).

Definition set_loaded_files (l : list str) : Method unit :=
  fun w =>
    (inr tt, mkWorld (mkDataLoader (_df (self w)) l) (data_folder w) (stdout w)).

(** [self.data_folder.exists()] *)
Definition data_folder_exists : Method bool :=
  fun w => (inr (match data_folder w with Some _ => true | None => false end), w).

(** [self.data_folder.mkdir(parents=True)] *)
Definition data_folder_mkdir : Method unit :=
  fun w => (inr tt, mkWorld (self w) (Some []) (stdout w)).

Fixpoint endswith (suffix s : str) : bool :=
  if Nat.leb (length s) (length suffix) then
    match str_compare s suffix with Eq => true | _ => false end
  else
    match s with
    | [] => false
    | _ :: s' => endswith suffix s'
    end.

(** [self.data_folder.glob("*.csv")]: the paths whose name ends in
    [.csv] *)
Definition data_folder_glob_csv : Method (list Path) :=
  fun w =>
    (inr (filter (fun p => endswith (u ".csv") (name p))
            (match data_folder w with Some l => l | None => [] end)), w).

Definition print (l : line) : Method unit :=
  fun w => (inr tt, mkWorld (self w) (data_folder w) (stdout w ++ [l])).

Definition COLUMN_NAMES : list string :=
  [ "事業所ｺｰﾄﾞ"; "事業所名"; "事業所略名"; "部課ｺｰﾄﾞ"; "部課名"; "部課略名";
    "出力帳票"; "改頁№"; "SEQNO"; "科目ｺｰﾄﾞ"; "補助ｺｰﾄﾞ"; "科目名";
    "補助科目名"; "科目略名"; "貸借区分"; "属性区分"; "罫線区分";
    "前残高"; "借方"; "貸方"; "残高"; "開始年月"; "終了年月" ]%string.

Definition NUMERIC_COLUMNS : list string :=
  [ "前残高"; "借方"; "貸方"; "残高" ]%string.

(** [df[label] = value]: the label is appended unless the frame has it. *)
Definition with_column (label : string) (cols : list string) : list string :=
  if existsb (String.eqb label) cols then cols else cols ++ [label].

(** [pd.concat(dfs, ignore_index=True)] *)
Definition concat {A} (dfs : list (DataFrame A)) : DataFrame A :=
  mkDataFrame (unique String.eqb (flat_map (@columns A) dfs))
              (flat_map (@values A) dfs).

(** [series.fillna(0)] *)
Definition fillna0 (f : float) : float :=
  if is_nan f then 0%float else f.

Section Library.

(** The two tables of the Python runtime the loader consults: the Unicode
    decimal digits, which [\d] matches in a [str] pattern, and the numbers
    pandas reads from a text. *)
Variable isdecimal : N -> bool.
Variable parse_number : str -> option float.

(** [pd.to_numeric(series, errors='coerce')], cell by cell *)
Definition to_numeric_coerce (c : cell) : float :=
  match c with
  | Number f => f
  | Text s => match parse_number s with Some f => f | None => nan end
  end.

(** The pattern [(\d{4})_(\d{2})_] tried at the start of [s]; the two
    groups when it matches. *)
Definition match_pattern (s : str) : option (str * str) :=
  match s with
  | y1 :: y2 :: y3 :: y4 :: s1 :: m1 :: m2 :: s2 :: _ =>
      if isdecimal y1 && isdecimal y2 && isdecimal y3 && isdecimal y4
         && N.eqb s1 95 && isdecimal m1 && isdecimal m2 && N.eqb s2 95
      then Some ([y1; y2; y3; y4], [m1; m2])
      else None
  | _ => None
  end.

(** [re.search(pattern, s)]: the match at the leftmost position that has
    one. *)
Fixpoint re_search (s : str) : option (str * str) :=
  match match_pattern s with
  | Some groups => Some groups
  | None =>
      match s with
      | [] => None
      | _ :: s' => re_search s'
      end
  end.

Definition _extract_year_month_from_filename (filename : str) : option str :=
  match re_search filename with
  | Some (year, month) => Some (year ++ u "/" ++ month)
  | None => None
  end.

Definition load_file (filepath : Path) : Method Ledger :=
  match read_csv filepath with
  | inl e => raise e
  | inr d =>
      (* [for col in NUMERIC_COLUMNS: if col in df.columns: ...]: the
         four monetary cells of each row are converted where the rows are
         rebuilt below; a cell of a column the file lacks is not part of
         the frame *)
      let filename := name filepath in
      let year_month := _extract_year_month_from_filename filename in
      year_month <-
        match year_month with
        | None =>
            if existsb (String.eqb "開始年月") (columns d) then
              first_valid <-
                (if negb (series_empty (dropna (col raw_start_period d)))
                 then x <- iloc0 (dropna (col raw_start_period d)) ;; ret (Some x)
                 else ret None) ;;
              ret first_valid
            else ret None
        | Some ym => ret (Some ym)
        end ;;
      ret (mkDataFrame
             (with_column "year_month" (with_column "source_file" (columns d)))
             (map (fun r =>
                     {| c_dept_code := raw_dept_code r;
                        c_dept_name := raw_dept_name r;
                        c_report_type := raw_report_type r;
                        c_account_code := raw_account_code r;
                        c_account_name := raw_account_name r;
                        c_prior_balance := fillna0 (to_numeric_coerce (raw_prior_balance r));
                        c_debit := fillna0 (to_numeric_coerce (raw_debit r));
                        c_credit := fillna0 (to_numeric_coerce (raw_credit r));
                        c_balance := fillna0 (to_numeric_coerce (raw_balance r));
                        c_start_period := raw_start_period r;
                        c_source_file := filename;
                        c_year_month := year_month |})
                  (values d)))
  end.

Definition load_all : Method (option Ledger) :=
  folder_exists <- data_folder_exists ;;
  if negb folder_exists then
    data_folder_mkdir ;;;
    set_df (Some (empty_frame (COLUMN_NAMES ++ ["source_file"; "year_month"]%string))) ;;;
    get_df
  else
    found <- data_folder_glob_csv ;;
    (* paths of one folder compare as their names do *)
    let csv_files := sorted (fun p q => str_leb (name p) (name q)) found in
    if series_empty csv_files then
      set_df (Some (empty_frame (COLUMN_NAMES ++ ["source_file"; "year_month"]%string))) ;;;
      get_df
    else
      set_loaded_files [] ;;;
      dfs <-
        for_each csv_files
          (fun (dfs : list Ledger) filepath =>
             try_except
               (d <- load_file filepath ;;
                loaded <- get_loaded_files ;;
                set_loaded_files (loaded ++ [name filepath]) ;;;
                ret (dfs ++ [d]))
               (fun e => print (warning (name filepath) e) ;;; ret dfs))
          [] ;;
      (if negb (series_empty dfs) then set_df (Some (concat dfs))
       else set_df (Some (empty_frame
                            (COLUMN_NAMES ++ ["source_file"; "year_month"]%string)))) ;;;
      get_df.

Definition reload : Method (option Ledger) :=
  set_df None ;;;
  set_loaded_files [] ;;;
  load_all.

(** The property [df] *)
Definition df : Method (option Ledger) :=
  cached <- get_df ;;
  (match cached with
   | None => load_all ;;; ret tt
   | Some _ => ret tt
   end) ;;;
  get_df.

(** The property [loaded_files] *)
Definition loaded_files : Method (list str) := get_loaded_files.


Definition get_departments : Method (list (Z * str)) :=
  d <- df ;;
  match d with
  | None => raise AttributeError
  | Some d =>
      if empty d then ret []
      else
        let dept_df :=
          drop_duplicates
            (fun a b => Z.eqb (fst a) (fst b) && str_eqb (snd a) (snd b))
            (select ["部課ｺｰﾄﾞ"; "部課名"]%string
                    (fun r => (c_dept_code r, c_dept_name r)) d) in
        let dept_df := sort_values (fun a b => Z.leb (fst a) (fst b)) dept_df in
        ret (combine (col fst dept_df) (col snd dept_df))
  end.



End Library.

(** [DataLoader(data_folder)] *)
Definition init : DataLoader := mkDataLoader None [].

End Loader.

(** ** DetailView (src/views/detail_view.py): the filter selection

    Of the view, the three selections of its combo boxes and the methods
    that turn them into the arguments of [get_detail_data]. *)

Module DetailView.

Import Loader.

(** The values of [dept_var], [period_var] and [output_var]. *)
Record DetailView : Type := mkDetailView {
  dept_var : str;
  period_var : str;
  output_var : str
}.

(** ["全部門"], ["全期間"] and ["損益計算書"] *)
Definition ALL_DEPARTMENTS : str := [20840; 37096; 38272]%N.
Definition ALL_PERIODS : str := [20840; 26399; 38291]%N.
Definition INCOME_STATEMENT : str := [25613; 30410; 35336; 31639; 26360]%N.

(** [for code, name in departments: if name == selected: return code]
    followed by [return None] *)
Fixpoint first_code_named (selected : str) (departments : list (Z * str))
  : option Z :=
  match departments with
  | [] => None
  | (code, name) :: departments' =>
      if str_eqb name selected then Some code
      else first_code_named selected departments'
  end.

Section Library.

Variable isdecimal : N -> bool.
Variable parse_number : str -> option float.

Definition _get_selected_dept_code (view : DetailView) : Method (option Z) :=
  let selected := dept_var view in
  if str_eqb selected ALL_DEPARTMENTS then ret None
  else
    departments <- get_departments isdecimal parse_number ;;
    ret (first_code_named selected departments).

End Library.

Definition _get_selected_period (view : DetailView) : option str :=
  let selected := period_var view in
  if str_eqb selected ALL_PERIODS then None else Some selected.

Definition _get_selected_output_type (view : DetailView) : Z :=
  let selected := output_var view in
  if str_eqb selected INCOME_STATEMENT then 0%Z else 1%Z.

End DetailView.

(** * Specification

    The functions and data the properties are stated with: the
    specification's wording of the queries, the example Ledgers, and the
    queries as data. *)

Module AggregatorSpec.

Import Aggregator.

Local Open Scope Z_scope.

(** The guarded quotient [(x / y * 100) if y != 0 else 0]. *)
Definition margin (x y : float) : number :=
  if PrimFloat.eqb y 0 then Int 0 else Float (x / y * 100).

(** "The [value_column] of the first row matching [account_code] within
    [rows]; 0.0 if no match." *)
Fixpoint first_match (rows : list Row) (account_code : Z) (c : value_column)
  : float :=
  match rows with
  | [] => 0%float
  | r :: rows' =>
      if Z.eqb (c_account_code r) account_code then value_of c r
      else first_match rows' account_code c
  end.

Definition of_department (code : Z) (rows : list Row) : list Row :=
  filter (fun r => Z.eqb (c_dept_code r) code) rows.

(** The distinct department codes of [rows], in order of first appearance. *)
Definition departments (rows : list Row) : list Z :=
  unique Z.eqb (map c_dept_code rows).

(** "Sum per-department lookups": the first-match balance of
    [account_code] within each department's rows, added up department by
    department starting from 0.0. *)
Definition sum_by_department (rows : list Row) (account_code : Z) : float :=
  fold_left
    (fun acc code => (acc + first_match (of_department code rows) account_code balance)%float)
    (departments rows) 0%float.

(** The rows a query with these filters looks at. *)
Definition in_department (dept_code : option Z) (rows : list Row) : list Row :=
  match dept_code with
  | Some code => of_department code rows
  | None => rows
  end.

Definition in_period (year_month : option str) (rows : list Row) : list Row :=
  match year_month with
  | Some ym => filter (period_is ym) rows
  | None => rows
  end.

Definition of_report (report_type : Z) (rows : list Row) : list Row :=
  filter (fun r => Z.eqb (c_report_type r) report_type) rows.

Definition scope (dept_code : option Z) (year_month : option str)
    (report_type : Z) (self : DataProcessor) : list Row :=
  of_report report_type (in_period year_month (in_department dept_code (values (df self)))).

Definition lookup (dept_code : option Z) (rows : list Row) (account_code : Z)
  : float :=
  match dept_code with
  | Some _ => first_match rows account_code balance
  | None => sum_by_department rows account_code
  end.

Definition kpi_of (value : Z -> float) : KPI :=
  {| revenue := value 4199;
     cost_of_sales := value 5399;
     gross_profit := value 5400;
     sga := value 6299;
     operating_income := value 7000;
     ordinary_income := value 8000;
     net_income := value 9000;
     gross_margin := margin (value 5400) (value 4199);
     op_margin := margin (value 7000) (value 4199);
     ord_margin := margin (value 8000) (value 4199);
     net_margin := margin (value 9000) (value 4199) |}.

(** The name column's first entry, or [''] for a frame without rows. *)
Definition first_name (proj : Row -> str) (rows : list Row) : str :=
  match rows with
  | [] => []
  | r :: _ => proj r
  end.

Definition dept_record (rows : list Row) (code : Z) : DeptRecord :=
  let dept_rows := of_department code rows in
  {| b_dept_code := code;
     b_dept_name := first_name c_dept_name dept_rows;
     b_revenue := first_match dept_rows 4199 balance;
     b_gross_profit := first_match dept_rows 5400 balance;
     b_operating_income := first_match dept_rows 7000 balance;
     b_ordinary_income := first_match dept_rows 8000 balance;
     b_gross_margin :=
       margin (first_match dept_rows 5400 balance) (first_match dept_rows 4199 balance);
     b_op_margin :=
       margin (first_match dept_rows 7000 balance) (first_match dept_rows 4199 balance) |}.

Definition cost_record (cost_rows main_rows : list Row) (code : Z) : CostRecord :=
  let dept_cost := of_department code cost_rows in
  let dept_main := of_department code main_rows in
  {| k_dept_code := code;
     k_dept_name := first_name c_dept_name dept_cost;
     k_material := first_match dept_cost 5419 balance;
     k_labor := first_match dept_cost 5439 balance;
     k_expense := first_match dept_cost 5469 balance;
     k_mfg := first_match dept_main 5299 balance |}.

(** The SGA line items: main-account rows with a code in [6000, 6299). *)
Definition sga_rows (rows : list Row) : list Row :=
  filter (fun r => Z.leb 6000 (c_account_code r) && Z.ltb (c_account_code r) 6299)
         rows.

Definition of_account (code : Z) (rows : list Row) : list Row :=
  filter (fun r => Z.eqb (c_account_code r) code) rows.

(** The flat sum of the balances of the rows with this account code. *)
Definition flat_total (rows : list Row) (code : Z) : float :=
  sum (map c_balance (of_account code rows)).

Definition sga_item (rows : list Row) (code : Z) : SgaItem :=
  {| s_account_code := code;
     s_account_name := first_name c_account_name (of_account code rows);
     s_amount := flat_total rows code |}.

(** The items the loop of [get_sga_breakdown] keeps, in loop order. *)
Definition sga_items (rows : list Row) : list SgaItem :=
  flat_map
    (fun code =>
       if negb (PrimFloat.eqb (flat_total rows code) 0) then [sga_item rows code]
       else [])
    (unique Z.eqb (map c_account_code rows)).

Definition sorted_if_any (d : DataFrame SgaItem) : DataFrame SgaItem :=
  if negb (empty d) then sort_values_descending s_amount d else d.

(** The two-department Ledger of the specification's example: department
    210 with accounts 4199, 5400, 7000, 8000 and 9000, department 220 with
    account 4199, all in the main statement of period 2025/07. *)
Definition example_row (dept_code : Z) (dept_name : string) (account_code : Z)
    (amount : float) : Row :=
  {| c_dept_code := dept_code;
     c_dept_name := u dept_name;
     c_report_type := 0;
     c_account_code := account_code;
     c_account_name := [];
     c_prior_balance := 0;
     c_debit := 0;
     c_credit := 0;
     c_balance := amount;
     c_start_period := None;
     c_source_file := u "2025_07_pl.csv";
     c_year_month := Some (u "2025/07") |}.

Definition ledger_columns : list string :=
  Loader.COLUMN_NAMES ++ ["source_file"; "year_month"]%string.

Definition example_ledger : DataProcessor :=
  mkDataProcessor
    (mkDataFrame ledger_columns
       [ example_row 210 "Kenki" 4199 10000000;
         example_row 210 "Kenki" 5400 3000000;
         example_row 210 "Kenki" 7000 2500000;
         example_row 210 "Kenki" 8000 2400000;
         example_row 210 "Kenki" 9000 2000000;
         example_row 220 "Infra" 4199 8000000 ]).




Definition empty_ledger : DataProcessor :=
  mkDataProcessor (empty_frame ledger_columns).




Definition report_row (report_type dept_code account_code : Z) (amount : float)
  : Row :=
  {| c_dept_code := dept_code;
     c_dept_name := [];
     c_report_type := report_type;
     c_account_code := account_code;
     c_account_name := [];
     c_prior_balance := 0;
     c_debit := 0;
     c_credit := 0;
     c_balance := amount;
     c_start_period := None;
     c_source_file := u "2025_07_pl.csv";
     c_year_month := Some (u "2025/07") |}.

(** Department 210 has the cost supplement and a manufacturing-cost line;
    department 300 has a manufacturing-cost line only. *)
Definition cost_ledger : DataProcessor :=
  mkDataProcessor
    (mkDataFrame ledger_columns
       [ report_row 0 210 5299 6500000;
         report_row 1 210 5419 3000000;
         report_row 1 210 5439 2000000;
         report_row 1 210 5469 1500000;
         report_row 0 300 5299 4000000 ]).

(** A call of one of the query methods, with its arguments. *)
Inductive query : Type :=
| q_filter_by_department (dept_code : option Z)
| q_filter_by_period (year_month : option str)
| q_get_main_accounts (d : option Ledger)
| q_get_cost_breakdown (d : option Ledger)
| q_get_account_value (d : Ledger) (account_code : Z) (c : value_column)
| q_calculate_kpi (dept_code : option Z) (year_month : option str)
| q_get_department_breakdown (year_month : option str)
| q_get_cost_structure (dept_code : option Z) (year_month : option str)
| q_get_detail_data (dept_code : option Z) (year_month : option str)
    (output_type : Z)
| q_get_sga_breakdown (dept_code : option Z) (year_month : option str)
| q_get_cost_breakdown_by_dept (year_month : option str).

Inductive answer : Type :=
| a_rows (d : Ledger)
| a_value (v : float)
| a_kpi (k : KPI)
| a_departments (d : DataFrame DeptRecord)
| a_cost_structure (c : CostStructure)
| a_detail (d : DataFrame DetailRow)
| a_sga (d : DataFrame SgaItem)
| a_cost_by_dept (d : DataFrame CostRecord).

Definition call (q : query) : Method answer :=
  match q with
  | q_filter_by_department dept_code =>
      x <- filter_by_department dept_code ;; ret (a_rows x)
  | q_filter_by_period year_month =>
      x <- filter_by_period year_month ;; ret (a_rows x)
  | q_get_main_accounts d => x <- get_main_accounts d ;; ret (a_rows x)
  | q_get_cost_breakdown d => x <- get_cost_breakdown d ;; ret (a_rows x)
  | q_get_account_value d account_code c =>
      x <- get_account_value d account_code c ;; ret (a_value x)
  | q_calculate_kpi dept_code year_month =>
      x <- calculate_kpi dept_code year_month ;; ret (a_kpi x)
  | q_get_department_breakdown year_month =>
      x <- get_department_breakdown year_month ;; ret (a_departments x)
  | q_get_cost_structure dept_code year_month =>
      x <- get_cost_structure dept_code year_month ;; ret (a_cost_structure x)
  | q_get_detail_data dept_code year_month output_type =>
      x <- get_detail_data dept_code year_month output_type ;; ret (a_detail x)
  | q_get_sga_breakdown dept_code year_month =>
      x <- get_sga_breakdown dept_code year_month ;; ret (a_sga x)
  | q_get_cost_breakdown_by_dept year_month =>
      x <- get_cost_breakdown_by_dept year_month ;; ret (a_cost_by_dept x)
  end.

(** The calls of a list made one after the other on the same processor:
    what each returned, and the processor at the end. *)
Fixpoint session (qs : list query) (self : DataProcessor)
  : list (exn + answer) * DataProcessor :=
  match qs with
  | [] => ([], self)
  | q :: qs' =>
      let (r, self') := call q self in
      let (rs, self'') := session qs' self' in
      (r :: rs, self'')
  end.

(** The order of the detail table: by department name, then by account
    name. *)
Definition detail_order (a b : DetailRow) : Prop :=
  str_compare (t_dept_name a) (t_dept_name b) = Lt \/
  (t_dept_name a = t_dept_name b /\
   str_leb (t_account_name a) (t_account_name b) = true).

(** The seven amounts of a KPI record, with the account code each is
    looked up under. *)
Definition kpi_amounts : list (Z * (KPI -> float)) :=
  [ (4199, revenue); (5399, cost_of_sales); (5400, gross_profit); (6299, sga);
    (7000, operating_income); (8000, ordinary_income); (9000, net_income) ].

(** The processor of the Ledger with one more row at the end. *)
Definition with_row (self : DataProcessor) (r : Row) : DataProcessor :=
  mkDataProcessor (mkDataFrame (columns (df self)) (values (df self) ++ [r])).

(** Department 210 reports its revenue in two periods. *)
Definition two_period_ledger : DataProcessor :=
  mkDataProcessor
    (mkDataFrame ledger_columns
       [ example_row 210 "Kenki" 4199 10000000;
         {| c_dept_code := 210;
            c_dept_name := u "Kenki";
            c_report_type := 0;
            c_account_code := 4199;
            c_account_name := [];
            c_prior_balance := 0;
            c_debit := 0;
            c_credit := 0;
            c_balance := 22000000;
            c_start_period := None;
            c_source_file := u "2025_08_pl.csv";
            c_year_month := Some (u "2025/08") |} ]).

End AggregatorSpec.

Module LoaderSpec.

Import Loader.

Section Library.

Variable isdecimal : N -> bool.
Variable parse_number : str -> option float.

(** The pattern "four digits, underscore, two digits, underscore" occurs
    in [s] at position [i], with these digits. *)
Definition pattern_at (s : str) (i : nat) (year month : str) : Prop :=
  exists before after,
    s = before ++ year ++ [95%N] ++ month ++ [95%N] ++ after /\
    length before = i /\
    length year = 4 /\ length month = 2 /\
    Forall (fun c => isdecimal c = true) year /\
    Forall (fun c => isdecimal c = true) month.

(** The occurrence at the leftmost position that has one. *)
Definition first_pattern (s : str) (i : nat) (year month : str) : Prop :=
  pattern_at s i year month /\
  forall j year' month', j < i -> ~ pattern_at s j year' month'.

(** The period [load_file] derives for a file. *)
Definition period_of (filename : str) (d : DataFrame RawRow) : option str :=
  match _extract_year_month_from_filename isdecimal filename with
  | Some ym => Some ym
  | None =>
      if existsb (String.eqb "開始年月") (columns d)
      then hd_error (dropna (col raw_start_period d))
      else None
  end.

(** The row [load_file] makes of a parsed row. *)
Definition tagged (filename : str) (period : option str) (r : RawRow) : Row :=
  {| c_dept_code := raw_dept_code r;
     c_dept_name := raw_dept_name r;
     c_report_type := raw_report_type r;
     c_account_code := raw_account_code r;
     c_account_name := raw_account_name r;
     c_prior_balance := fillna0 (to_numeric_coerce parse_number (raw_prior_balance r));
     c_debit := fillna0 (to_numeric_coerce parse_number (raw_debit r));
     c_credit := fillna0 (to_numeric_coerce parse_number (raw_credit r));
     c_balance := fillna0 (to_numeric_coerce parse_number (raw_balance r));
     c_start_period := raw_start_period r;
     c_source_file := filename;
     c_year_month := period |}.

Definition empty_ledger : Ledger :=
  empty_frame (COLUMN_NAMES ++ ["source_file"; "year_month"]%string).

(** One turn of the loop of [load_all]. *)
Definition load_step (dfs : list Ledger) (filepath : Path)
  : Method (list Ledger) :=
  try_except
    (d <- load_file isdecimal parse_number filepath ;;
     loaded <- get_loaded_files ;;
     set_loaded_files (loaded ++ [name filepath]) ;;;
     ret (dfs ++ [d]))
    (fun e => print (warning (name filepath) e) ;;; ret dfs).




(** The data folder is missing, or holds no file matching [*.csv]. *)
Definition no_csv_files (w : World) : Prop :=
  match data_folder w with
  | None => True
  | Some files => forall p, In p files -> endswith (u ".csv") (name p) = false
  end.

End Library.

(** For the examples, an instance of the two tables of the runtime: the
    ASCII digits are the decimals, and no text reads as a number. *)
Definition ascii_digit (c : N) : bool := N.leb 48 c && N.leb c 57.

Definition no_numbers (s : str) : option float := None.

Definition example_raw_row : RawRow :=
  {| raw_dept_code := 210;
     raw_dept_name := u "Kenki";
     raw_report_type := 0;
     raw_account_code := 4199;
     raw_account_name := u "revenue";
     raw_prior_balance := Number 0;
     raw_debit := Text (u "-");
     raw_credit := Number nan;
     raw_balance := Number 10000000;
     raw_start_period := Some (u "2025/07") |}.

Definition example_path : Path :=
  {| name := u "prefix_2025_08_suffix.csv";
     read_csv := inr (mkDataFrame COLUMN_NAMES [example_raw_row]) |}.

Definition fresh_world (files : list Path) : World :=
  mkWorld init (Some files) [].

(** The world after a load of one file, once the file has been removed
    from the folder. *)
Definition emptied_world : World :=
  let w := snd (load_all ascii_digit no_numbers (fresh_world [example_path])) in
  mkWorld (self w) (Some []) (stdout w).

(** *** Loading a folder *)

Section Loading.

Variable isdecimal : N -> bool.
Variable parse_number : str -> option float.

(** What the data folder holds; nothing while it does not exist. *)
Definition folder_files (w : World) : list Path :=
  match data_folder w with Some l => l | None => [] end.

(** Ascending order of file names. *)
Definition name_le (p q : Path) : Prop := str_leb (name p) (name q) = true.

(** The CSV files of the data folder, in the order [load_all] visits
    them. *)
Definition csv_files (w : World) : list Path :=
  sorted (fun p q => str_leb (name p) (name q))
    (filter (fun p => endswith (u ".csv") (name p))
       (match data_folder w with Some l => l | None => [] end)).

(** [pd.read_csv] accepts the file. *)
Definition parses (p : Path) : bool :=
  match read_csv p with inr _ => true | inl _ => false end.

(** The rows a file contributes: its parsed rows in file order, each
    with the name of the file and the period of the file; none if the
    file does not parse. *)
Definition rows_of_file (p : Path) : list Row :=
  match read_csv p with
  | inr d => map (tagged parse_number (name p) (period_of isdecimal (name p) d))
                 (values d)
  | inl _ => []
  end.

(** The frames [load_all] collects from these files. *)
Definition frames_of (files : list Path) : list Ledger :=
  flat_map
    (fun p =>
       match read_csv p with
       | inr d =>
           [mkDataFrame
              (with_column "year_month" (with_column "source_file" (columns d)))
              (map (tagged parse_number (name p) (period_of isdecimal (name p) d))
                   (values d))]
       | inl _ => []
       end)
    files.

(** The Ledger [load_all] makes of these files: [pd.concat(dfs)], or the
    empty Ledger when no file parses. *)
Definition ledger_of (files : list Path) : Ledger :=
  match frames_of files with
  | [] => empty_ledger
  | _ :: _ => concat (frames_of files)
  end.

(** The warnings [load_all] prints for these files. *)
Definition warnings_of (files : list Path) : list line :=
  flat_map
    (fun p =>
       match read_csv p with
       | inl e => [warning (name p) e]
       | inr _ => []
       end)
    files.

(** The same world with the files that do not parse taken out of the
    folder. *)
Definition without_broken_files (w : World) : World :=
  mkWorld (self w)
    (match data_folder w with
     | Some files => Some (filter parses files)
     | None => None
     end)
    (stdout w).

End Loading.

(** Ascending order of department codes. *)
Definition code_le (a b : Z * str) : Prop := (fst a <= fst b)%Z.

(** The row's department, as [get_departments] lists it. *)
Definition department_of (r : Row) : Z * str := (c_dept_code r, c_dept_name r).

(** [code] is the least department code that goes by [name] in the
    Ledger. *)
Definition least_code_named (d : Ledger) (name : str) (code : Z) : Prop :=
  (exists r, In r (values d) /\ c_dept_code r = code /\ c_dept_name r = name) /\
  forall r, In r (values d) -> c_dept_name r = name -> (code <= c_dept_code r)%Z.

End LoaderSpec.

(** * Properties *)

Unset Implicit Arguments.

(** ** Running methods *)

Section Running.

Context {St : Type}.

Lemma bind_returns {A B} {m : M St A} (k : A -> M St B) {s a s'} :
  m s = (inr a, s') -> bind m k s = k a s'.
Proof. intros H. unfold bind. now rewrite H. Qed.

Lemma bind_ret {A B} (a : A) (k : A -> M St B) s : bind (ret a) k s = k a s.
Proof. reflexivity. Qed.

Lemma bind_assoc {A B C} (m : M St A) (k : A -> M St B) (k' : B -> M St C) s :
  bind (bind m k) k' s = bind m (fun x => bind (k x) k') s.
Proof. unfold bind. destruct (m s) as [[e|a] s']; reflexivity. Qed.

(** A loop whose body neither raises nor touches the object is a fold. *)
Lemma for_each_fold {A B} (body : B -> A -> M St B) (step : B -> A -> B) s :
  (forall acc x, body acc x s = (inr (step acc x), s)) ->
  forall l acc, for_each l body acc s = (inr (fold_left step l acc), s).
Proof.
  intros Hbody l. induction l as [|x l IH]; intros acc; simpl.
  - reflexivity.
  - rewrite (bind_returns _ (Hbody acc x)). apply IH.
Qed.

(** A loop that appends one item per element is a map. *)
Lemma for_each_append {A B} (body : list B -> A -> M St (list B)) (item : A -> B) s :
  (forall acc x, body acc x s = (inr (acc ++ [item x]), s)) ->
  forall l acc, for_each l body acc s = (inr (acc ++ map item l), s).
Proof.
  intros Hbody l acc. rewrite (for_each_fold body (fun acc x => acc ++ [item x]) s Hbody).
  f_equal. f_equal. revert acc.
  induction l as [|x l IH]; intros acc; simpl.
  - now rewrite app_nil_r.
  - rewrite IH, <- app_assoc. reflexivity.
Qed.

(** A loop that appends at most one item per element is a [flat_map]. *)
Lemma for_each_append_some {A B} (body : list B -> A -> M St (list B))
    (items : A -> list B) s :
  (forall acc x, body acc x s = (inr (acc ++ items x), s)) ->
  forall l acc, for_each l body acc s = (inr (acc ++ flat_map items l), s).
Proof.
  intros Hbody l acc. rewrite (for_each_fold body (fun acc x => acc ++ items x) s Hbody).
  f_equal. f_equal. revert acc.
  induction l as [|x l IH]; intros acc; simpl.
  - now rewrite app_nil_r.
  - rewrite IH, <- app_assoc. reflexivity.
Qed.

End Running.

(** ** Lists, [unique] and [sorted] *)

Section Unique.

Context {A : Type} (eqb : A -> A -> bool).
Hypothesis eqb_eq : forall a b, eqb a b = true <-> a = b.

Lemma existsb_eqb_In x l : existsb (eqb x) l = true <-> In x l.
Proof.
  rewrite existsb_exists. split.
  - intros (y & Hy & E). apply eqb_eq in E. now subst.
  - intros H. exists x. split; [assumption|now apply eqb_eq].
Qed.

Lemma unique_from_In seen l x :
  In x (unique_from eqb seen l) <-> In x l /\ ~ In x seen.
Proof.
  revert seen. induction l as [|y l IH]; intros seen; simpl.
  - tauto.
  - destruct (existsb (eqb y) seen) eqn:E.
    + apply existsb_eqb_In in E. rewrite IH. split.
      * intros [H1 H2]. auto.
      * intros [[->|H1] H2]; [contradiction|auto].
    + assert (Hy : ~ In y seen).
      { intros H. apply existsb_eqb_In in H. congruence. }
      simpl. rewrite IH. simpl. split.
      * intros [->|[H1 H2]]; [auto|]. split; [auto|]. intros H. apply H2. auto.
      * intros [[->|H1] H2]; [auto|].
        destruct (existsb (eqb y) [x]) eqn:E'.
        -- apply existsb_eqb_In in E'. destruct E' as [->|[]]. auto.
        -- right. split; [assumption|]. intros [->|H]; [|contradiction].
           simpl in E'. rewrite (proj2 (eqb_eq x x) eq_refl) in E'. discriminate.
Qed.

Lemma unique_from_NoDup seen l : NoDup (unique_from eqb seen l).
Proof.
  revert seen. induction l as [|y l IH]; intros seen; simpl.
  - constructor.
  - destruct (existsb (eqb y) seen); [apply IH|].
    constructor; [|apply IH].
    rewrite unique_from_In. simpl. tauto.
Qed.

Lemma unique_In l x : In x (unique eqb l) <-> In x l.
Proof. unfold unique. rewrite unique_from_In. simpl. tauto. Qed.

Lemma unique_NoDup l : NoDup (unique eqb l).
Proof. apply unique_from_NoDup. Qed.

End Unique.

Section Sorting.

Context {A : Type} (leb : A -> A -> bool).

Lemma insert_perm x l : Permutation (x :: l) (insert leb x l).
Proof.
  induction l as [|y l IH]; simpl.
  - reflexivity.
  - destruct (leb x y); [reflexivity|].
    rewrite perm_swap. now constructor.
Qed.

Lemma sorted_perm l : Permutation l (sorted leb l).
Proof.
  induction l as [|x l IH]; simpl.
  - constructor.
  - rewrite <- insert_perm. now constructor.
Qed.

Lemma sorted_In l x : In x (sorted leb l) <-> In x l.
Proof.
  split; apply Permutation_in; [symmetry|]; apply sorted_perm.
Qed.

(** The order holds between neighbours as soon as [leb] is total on the
    elements of the list. *)
Lemma insert_Sorted (P : A -> Prop) x l :
  (forall a b, P a -> P b -> leb a b = false -> leb b a = true) ->
  P x -> Forall P l ->
  Sorted (fun a b => leb a b = true) l ->
  Sorted (fun a b => leb a b = true) (insert leb x l).
Proof.
  intros Htotal Hx Hl Hs. induction Hs as [|y l Hs IH Hhd]; simpl.
  - repeat constructor.
  - inversion Hl as [|? ? Hy Hl']; subst.
    destruct (leb x y) eqn:E.
    + repeat constructor; assumption.
    + constructor; [now apply IH|].
      destruct l as [|z l]; simpl.
      * constructor. now apply Htotal.
      * inversion Hhd; subst. destruct (leb x z); constructor;
          [now apply Htotal|assumption].
Qed.

Lemma sorted_Forall (P : A -> Prop) l : Forall P l -> Forall P (sorted leb l).
Proof.
  intros Hl. rewrite Forall_forall in *. intros y Hy. apply Hl.
  now apply sorted_In.
Qed.

Lemma sorted_Sorted (P : A -> Prop) l :
  (forall a b, P a -> P b -> leb a b = false -> leb b a = true) ->
  Forall P l ->
  Sorted (fun a b => leb a b = true) (sorted leb l).
Proof.
  intros Htotal Hl. induction l as [|x l IH]; simpl.
  - constructor.
  - inversion Hl; subst.
    apply insert_Sorted with (P := P); auto using sorted_Forall.
Qed.


End Sorting.

(** Neighbour-wise order under reversal and concatenation. *)
Section Neighbours.

Context {A : Type} (R : A -> A -> Prop).




End Neighbours.

(** ** The order of binary64 values *)





(** ** The order of strings *)

Lemma str_compare_eq a b : str_compare a b = Eq <-> a = b.
Proof.
  revert b. induction a as [|x a IH]; destruct b as [|y b]; simpl;
    try (split; discriminate); [tauto|].
  destruct (N.compare_spec x y) as [->|H|H].
  - rewrite IH. split; congruence.
  - split; [discriminate|]. intros E. injection E as -> _. lia.
  - split; [discriminate|]. intros E. injection E as -> _. lia.
Qed.

Lemma str_eqb_eq a b : str_eqb a b = true <-> a = b.
Proof.
  unfold str_eqb. rewrite <- str_compare_eq.
  destruct (str_compare a b); split; congruence.
Qed.

Lemma str_compare_antisym a b : str_compare b a = CompOpp (str_compare a b).
Proof.
  revert b. induction a as [|x a IH]; destruct b as [|y b]; simpl; try reflexivity.
  rewrite (N.compare_antisym x y), IH.
  destruct (x ?= y)%N; reflexivity.
Qed.

Lemma str_compare_lt_trans a b c :
  str_compare a b = Lt -> str_compare b c = Lt -> str_compare a c = Lt.
Proof.
  revert b c. induction a as [|x a IH]; destruct b as [|y b], c as [|z c]; simpl;
    try discriminate; try reflexivity.
  destruct (N.compare_spec x y) as [->|Hxy|Hxy]; try discriminate.
  - destruct (N.compare_spec y z) as [->|Hyz|Hyz]; try discriminate.
    + apply IH.
    + reflexivity.
  - destruct (N.compare_spec y z) as [->|Hyz|Hyz]; try discriminate;
      intros _ _.
    + now rewrite (proj2 (N.compare_lt_iff x z) Hxy).
    + rewrite (proj2 (N.compare_lt_iff x z)); [reflexivity|lia].
Qed.

Lemma str_leb_total a b : str_leb a b = false -> str_leb b a = true.
Proof.
  unfold str_leb. rewrite (str_compare_antisym a b).
  destruct (str_compare a b); simpl; congruence.
Qed.


Lemma str_leb_trans a b c :
  str_leb a b = true -> str_leb b c = true -> str_leb a c = true.
Proof.
  unfold str_leb.
  destruct (str_compare a b) eqn:Eab; try discriminate; intros _;
    destruct (str_compare b c) eqn:Ebc; try discriminate; intros _.
  - apply str_compare_eq in Eab, Ebc. subst.
    now rewrite (proj2 (str_compare_eq c c) eq_refl).
  - apply str_compare_eq in Eab. subst. now rewrite Ebc.
  - apply str_compare_eq in Ebc. subst. now rewrite Eab.
  - now rewrite (str_compare_lt_trans _ _ _ Eab Ebc).
Qed.

(** ** The Aggregator's queries in closed form *)

Module AggregatorFacts.

Import Aggregator AggregatorSpec.

Local Open Scope Z_scope.

Lemma guarded_margin {St} (x y : float) (s : St) :
  (if negb (PrimFloat.eqb y 0)
   then q <- truediv x y ;; ret (Float (q * 100))
   else ret (Int 0)) s
  = (inr (margin x y), s).
Proof.
  unfold margin, truediv, bind. destruct (PrimFloat.eqb y 0); reflexivity.
Qed.

Lemma get_account_value_run d account_code c (self : DataProcessor) :
  get_account_value d account_code c self
  = (inr (first_match (values d) account_code c), self).
Proof.
  destruct d as [labels rows]. unfold get_account_value, loc, empty, col. simpl.
  induction rows as [|r rows IH]; simpl.
  - reflexivity.
  - destruct (Z.eqb (c_account_code r) account_code); [reflexivity|exact IH].
Qed.

Lemma first_name_run {St} (proj : Row -> str) (d : Ledger) (s : St) :
  (if negb (empty d) then iloc0 (col proj d) else ret []) s
  = (inr (match values d with [] => [] | r :: _ => proj r end), s).
Proof.
  unfold empty, col. destruct (values d); reflexivity.
Qed.

Lemma bind_self_df {B} (k : Ledger -> Method B) self :
  bind self_df k self = k (df self) self.
Proof. reflexivity. Qed.

(** Evaluation of a method body, one statement at a time: dict lookups
    compute, and each call of [get_account_value] is replaced by its
    value. *)
Ltac run_step :=
  first
    [ rewrite bind_assoc
    | rewrite bind_ret
    | rewrite bind_self_df
    | rewrite (bind_returns _ (get_account_value_run _ _ _ _))
    | rewrite (bind_returns _ (guarded_margin _ _ _))
    | rewrite (bind_returns _ (first_name_run _ _ _)) ].

Ltac run :=
  unfold get_main_accounts, get_cost_breakdown, copy;
  repeat (cbn beta iota zeta delta [getitem ACCOUNT_CODES String.eqb Ascii.eqb Bool.eqb];
          run_step).

(** The seven totals of the company-wide loop are seven independent sums. *)
Lemma totals_fold (rows : list Row) (codes : list Z) :
  forall a1 a2 a3 a4 a5 a6 a7 : float,
  fold_left
    (fun (acc : totals) code =>
       let '(r1, r2, r3, r4, r5, r6, r7) := acc in
       let v k := first_match (of_department code rows) k balance in
       (PrimFloat.add r1 (v 4199), PrimFloat.add r2 (v 5399),
        PrimFloat.add r3 (v 5400), PrimFloat.add r4 (v 6299),
        PrimFloat.add r5 (v 7000), PrimFloat.add r6 (v 8000),
        PrimFloat.add r7 (v 9000)))
    codes (a1, a2, a3, a4, a5, a6, a7)
  = let total k a :=
      fold_left (fun acc code =>
                   (acc + first_match (of_department code rows) k balance)%float)
                codes a in
    (total 4199 a1, total 5399 a2, total 5400 a3, total 6299 a4,
     total 7000 a5, total 8000 a6, total 9000 a7).
Proof.
  induction codes as [|code codes IH]; intros; simpl.
  - reflexivity.
  - rewrite IH. reflexivity.
Qed.

Lemma calculate_kpi_run dept_code year_month (self : DataProcessor) :
  calculate_kpi dept_code year_month self
  = (inr (kpi_of (lookup dept_code (scope dept_code year_month 0 self))), self).
Proof.
  unfold calculate_kpi. run.
  destruct dept_code as [code|].
  - run. destruct year_month; reflexivity.
  - erewrite bind_returns.
    2:{ apply for_each_fold with
          (step := fun (acc : totals) code =>
             let '(r1, r2, r3, r4, r5, r6, r7) := acc in
             let v k := first_match
                          (of_department code (scope None year_month 0 self)) k balance in
             (PrimFloat.add r1 (v 4199), PrimFloat.add r2 (v 5399),
              PrimFloat.add r3 (v 5400), PrimFloat.add r4 (v 6299),
              PrimFloat.add r5 (v 7000), PrimFloat.add r6 (v 8000),
              PrimFloat.add r7 (v 9000))).
        intros [[[[[[r1 r2] r3] r4] r5] r6] r7] code. run.
        destruct year_month; reflexivity. }
    rewrite totals_fold. run.
    unfold kpi_of, lookup, sum_by_department, departments, scope, col, loc.
    destruct year_month; reflexivity.
Qed.

Lemma triple_fold (rows : list Row) (codes : list Z) :
  forall a1 a2 a3 : float,
  fold_left
    (fun (acc : float * float * float) code =>
       let '(r1, r2, r3) := acc in
       let v k := first_match (of_department code rows) k balance in
       (PrimFloat.add r1 (v 5419), PrimFloat.add r2 (v 5439),
        PrimFloat.add r3 (v 5469)))
    codes (a1, a2, a3)
  = let total k a :=
      fold_left (fun acc code =>
                   (acc + first_match (of_department code rows) k balance)%float)
                codes a in
    (total 5419 a1, total 5439 a2, total 5469 a3).
Proof.
  induction codes as [|code codes IH]; intros; simpl.
  - reflexivity.
  - rewrite IH. reflexivity.
Qed.

Lemma get_cost_structure_run dept_code year_month (self : DataProcessor) :
  get_cost_structure dept_code year_month self
  = (inr {| material_cost := lookup dept_code (scope dept_code year_month 1 self) 5419;
            labor_cost := lookup dept_code (scope dept_code year_month 1 self) 5439;
            expense := lookup dept_code (scope dept_code year_month 1 self) 5469;
            mfg_cost := lookup dept_code (scope dept_code year_month 0 self) 5299 |},
     self).
Proof.
  unfold get_cost_structure. run.
  destruct dept_code as [code|].
  - run. destruct year_month; reflexivity.
  - run.
    erewrite bind_returns.
    2:{ apply for_each_fold with
          (step := fun (acc : float * float * float) code =>
             let '(r1, r2, r3) := acc in
             let v k := first_match
                          (of_department code (scope None year_month 1 self)) k balance in
             (PrimFloat.add r1 (v 5419), PrimFloat.add r2 (v 5439),
              PrimFloat.add r3 (v 5469))).
        intros [[r1 r2] r3] code. run.
        destruct year_month; reflexivity. }
    rewrite triple_fold. run.
    erewrite bind_returns.
    2:{ apply for_each_fold with
          (step := fun (acc : float) code =>
             PrimFloat.add acc
               (first_match (of_department code (scope None year_month 0 self))
                  5299 balance)).
        intros acc code. run.
        destruct year_month; reflexivity. }
    run.
    unfold lookup, sum_by_department, departments, scope, col, loc.
    destruct year_month; reflexivity.
Qed.

Lemma get_department_breakdown_run year_month (self : DataProcessor) :
  get_department_breakdown year_month self
  = (inr (of_records
            (map (dept_record (scope None year_month 0 self))
               (sorted Z.leb (departments (scope None year_month 0 self))))),
     self).
Proof.
  unfold get_department_breakdown. run.
  erewrite bind_returns.
  2:{ apply for_each_append with
        (item := dept_record (scope None year_month 0 self)).
      intros acc code. run. destruct year_month; reflexivity. }
  run. destruct year_month; reflexivity.
Qed.

Lemma get_cost_breakdown_by_dept_run year_month (self : DataProcessor) :
  get_cost_breakdown_by_dept year_month self
  = (inr (of_records
            (map (cost_record (scope None year_month 1 self)
                              (scope None year_month 0 self))
               (sorted Z.leb (departments (scope None year_month 1 self))))),
     self).
Proof.
  unfold get_cost_breakdown_by_dept. run.
  erewrite bind_returns.
  2:{ apply for_each_append with
        (item := cost_record (scope None year_month 1 self)
                             (scope None year_month 0 self)).
      intros acc code. run. destruct year_month; reflexivity. }
  run. destruct year_month; reflexivity.
Qed.

Lemma get_sga_breakdown_run dept_code year_month (self : DataProcessor) :
  get_sga_breakdown dept_code year_month self
  = (inr (sorted_if_any
            (of_records (sga_items (sga_rows (scope dept_code year_month 0 self))))),
     self).
Proof.
  unfold get_sga_breakdown. run.
  erewrite bind_returns.
  2:{ apply for_each_append_some with
        (items := fun code =>
           if negb (PrimFloat.eqb
                      (flat_total (sga_rows (scope dept_code year_month 0 self)) code) 0)
           then [sga_item (sga_rows (scope dept_code year_month 0 self)) code]
           else []).
      intros acc code. run.
      unfold flat_total, sga_item, of_account, sga_rows, scope, of_report, col, loc.
      destruct dept_code, year_month; cbn [values in_period in_department];
        (destruct (negb _); [reflexivity|now rewrite app_nil_r]). }
  run. destruct dept_code, year_month; reflexivity.
Qed.

Lemma get_detail_data_run dept_code year_month output_type (self : DataProcessor) :
  get_detail_data dept_code year_month output_type self
  = (inr (mkDataFrame display_cols
            (sorted by_dept_then_account
               (map display_row (scope dept_code year_month output_type self)))),
     self).
Proof.
  unfold get_detail_data. run.
  destruct dept_code, year_month; reflexivity.
Qed.

Lemma departments_In rows code :
  In code (departments rows) <-> exists r, In r rows /\ c_dept_code r = code.
Proof.
  unfold departments. rewrite (unique_In Z.eqb Z.eqb_eq), in_map_iff.
  split; intros (r & H1 & H2); exists r; tauto.
Qed.

Lemma departments_NoDup rows : NoDup (departments rows).
Proof. apply unique_NoDup. exact Z.eqb_eq. Qed.

(** C6. For every row set and every account code, [get_account_value]
    returns the [value_column] entry of the first row of the set whose
    account code equals [account_code], and exactly 0.0 when no row
    matches.  It never raises and leaves the processor untouched. *)
Theorem get_account_value_first_match :
  forall (d : Ledger) (account_code : Z) (c : value_column) (self : DataProcessor),
    (forall before r after,
        values d = before ++ r :: after ->
        Forall (fun x => c_account_code x <> account_code) before ->
        c_account_code r = account_code ->
        get_account_value d account_code c self = (inr (value_of c r), self)) /\
    (Forall (fun x => c_account_code x <> account_code) (values d) ->
     get_account_value d account_code c self = (inr 0%float, self)).
Proof.
  intros d account_code c self. rewrite get_account_value_run. split.
  - intros before r after -> Hbefore Hr.
    induction Hbefore as [|x before Hx _ IH]; simpl.
    + rewrite (proj2 (Z.eqb_eq _ _) Hr). reflexivity.
    + apply Z.eqb_neq in Hx. rewrite Hx. exact IH.
  - intros Hnone. induction Hnone as [|x rows Hx _ IH]; simpl.
    + reflexivity.
    + apply Z.eqb_neq in Hx. rewrite Hx. exact IH.
Qed.

Lemma get_account_value_first_match_witness :
  get_account_value (df example_ledger) 5400 balance example_ledger
  = (inr 3000000%float, example_ledger)
  /\ get_account_value (df example_ledger) 6299 balance example_ledger
     = (inr 0%float, example_ledger).
Proof.
  split.
  - apply (proj1 (get_account_value_first_match (df example_ledger) 5400 balance
                    example_ledger)
             [example_row 210 "Kenki" 4199 10000000]
             (example_row 210 "Kenki" 5400 3000000)
             [example_row 210 "Kenki" 7000 2500000;
              example_row 210 "Kenki" 8000 2400000;
              example_row 210 "Kenki" 9000 2000000;
              example_row 220 "Infra" 4199 8000000]).
    + reflexivity.
    + repeat constructor. discriminate.
    + reflexivity.
  - apply (proj2 (get_account_value_first_match (df example_ledger) 6299 balance
                    example_ledger)).
    repeat constructor; discriminate.
Defined.

(** C1. Company-wide ([dept_code] null), each of the seven KPI amounts of
    [calculate_kpi] is the sum, over the distinct department codes present
    in the filtered main-account rows, of the first-match balance of that
    KPI's account code within the department's rows.  On the
    two-department example the company-wide revenue of 2025/07 is
    18000000 and the gross margin of department 210 is 30.0. *)
Theorem calculate_kpi_company_wide :
  (forall (self : DataProcessor) (year_month : option str),
      let rows := scope None year_month 0 self in
      NoDup (departments rows) /\
      (forall code,
          In code (departments rows) <-> exists r, In r rows /\ c_dept_code r = code) /\
      exists kpi,
        calculate_kpi None year_month self = (inr kpi, self) /\
        revenue kpi = sum_by_department rows 4199 /\
        cost_of_sales kpi = sum_by_department rows 5399 /\
        gross_profit kpi = sum_by_department rows 5400 /\
        sga kpi = sum_by_department rows 6299 /\
        operating_income kpi = sum_by_department rows 7000 /\
        ordinary_income kpi = sum_by_department rows 8000 /\
        net_income kpi = sum_by_department rows 9000) /\
  (exists kpi,
      calculate_kpi None (Some (u "2025/07")) example_ledger = (inr kpi, example_ledger) /\
      revenue kpi = 18000000%float) /\
  (exists kpi,
      calculate_kpi (Some 210) (Some (u "2025/07")) example_ledger
      = (inr kpi, example_ledger) /\
      gross_margin kpi = Float 30).
Proof.
  split; [|split].
  - intros self year_month rows. split; [apply departments_NoDup|].
    split; [apply departments_In|].
    eexists. split; [apply calculate_kpi_run|].
    repeat split.
  - eexists. split; [apply calculate_kpi_run|]. vm_compute. reflexivity.
  - eexists. split; [apply calculate_kpi_run|]. vm_compute. reflexivity.
Qed.


(** *** Degenerate selections *)



Lemma in_period_In ym rows r : In r (in_period ym rows) -> In r rows.
Proof.
  destruct ym; simpl; [|trivial]. intros H. now apply filter_In in H.
Qed.






(** *** The SGA breakdown *)

Lemma Sorted_weaken {A} (R R' : A -> A -> Prop) l :
  (forall a b, R a b -> R' a b) -> Sorted R l -> Sorted R' l.
Proof.
  intros HR. induction 1 as [|a l Hs IH Hhd]; constructor; [assumption|].
  destruct Hhd; constructor. now apply HR.
Qed.










(** *** Cost breakdown by department *)

(** C9. [get_cost_breakdown_by_dept] emits exactly one record for each
    department code present in the report-type-1 rows of the period, in
    ascending order of code, and none for any other department: on
    [cost_ledger] department 300, whose manufacturing cost of 4000000 is
    on the main statement, has no record. *)
Theorem cost_breakdown_by_dept_follows_supplement :
  (forall (self : DataProcessor) (year_month : option str),
      let cost_rows := scope None year_month 1 self in
      exists out,
        get_cost_breakdown_by_dept year_month self = (inr out, self) /\
        map k_dept_code (values out) = sorted Z.leb (departments cost_rows) /\
        NoDup (map k_dept_code (values out)) /\
        (forall code,
            In code (map k_dept_code (values out)) <->
            exists r, In r cost_rows /\ c_dept_code r = code)) /\
  (exists out,
      get_cost_breakdown_by_dept None cost_ledger = (inr out, cost_ledger) /\
      map k_dept_code (values out) = [210] /\
      first_match (of_department 300 (scope None None 0 cost_ledger)) 5299 balance
      = 4000000%float).
Proof.
  split.
  - intros self year_month cost_rows.
    eexists. split; [apply get_cost_breakdown_by_dept_run|].
    fold cost_rows. cbn [values of_records].
    assert (E : map k_dept_code
                  (map (cost_record cost_rows (scope None year_month 0 self))
                     (sorted Z.leb (departments cost_rows)))
                = sorted Z.leb (departments cost_rows)).
    { rewrite map_map. cbn [k_dept_code cost_record]. apply map_id. }
    rewrite E. split; [reflexivity|]. split.
    + apply (Permutation_NoDup (sorted_perm Z.leb (departments cost_rows))).
      apply departments_NoDup.
    + intros code. rewrite sorted_In. apply departments_In.
  - eexists. split; [apply get_cost_breakdown_by_dept_run|].
    split; vm_compute; reflexivity.
Qed.

(** *** Queries as pure functions of the Ledger *)

Lemma call_run q self : exists a, call q self = (inr a, self).
Proof.
  destruct q; unfold call.
  - destruct dept_code; eexists; reflexivity.
  - destruct year_month; eexists; reflexivity.
  - destruct d; eexists; reflexivity.
  - destruct d; eexists; reflexivity.
  - rewrite (bind_returns _ (get_account_value_run _ _ _ _)). eexists; reflexivity.
  - rewrite (bind_returns _ (calculate_kpi_run _ _ _)). eexists; reflexivity.
  - rewrite (bind_returns _ (get_department_breakdown_run _ _)). eexists; reflexivity.
  - rewrite (bind_returns _ (get_cost_structure_run _ _ _)). eexists; reflexivity.
  - rewrite (bind_returns _ (get_detail_data_run _ _ _ _)). eexists; reflexivity.
  - rewrite (bind_returns _ (get_sga_breakdown_run _ _ _)). eexists; reflexivity.
  - rewrite (bind_returns _ (get_cost_breakdown_by_dept_run _ _)). eexists; reflexivity.
Qed.

(** C8. Every query method returns a value and leaves the stored Ledger
    as it was; so in any sequence of calls each call returns what it
    returns on the processor as constructed, whatever was called before
    it and however often. *)
Theorem queries_are_pure :
  (forall (q : query) (self : DataProcessor),
      exists a, call q self = (inr a, self)) /\
  (forall (qs : list query) (self : DataProcessor),
      session qs self = (map (fun q => fst (call q self)) qs, self)).
Proof.
  split; [exact call_run|].
  intros qs self. induction qs as [|q qs IH]; simpl; [reflexivity|].
  destruct (call_run q self) as [a E]. rewrite E, IH. reflexivity.
Qed.

End AggregatorFacts.

(** ** The Loader *)

Module LoaderFacts.

Import Loader LoaderSpec.

(** *** The period of a file *)

Section Pattern.

Variable isdecimal : N -> bool.

Local Abbreviation pattern_at := (LoaderSpec.pattern_at isdecimal).
Local Abbreviation first_pattern := (LoaderSpec.first_pattern isdecimal).

Lemma match_pattern_spec s year month :
  match_pattern isdecimal s = Some (year, month) <-> pattern_at s 0 year month.
Proof.
  split.
  - destruct s as [|y1 [|y2 [|y3 [|y4 [|s1 [|m1 [|m2 [|s2 after]]]]]]]];
      simpl; try discriminate.
    destruct (isdecimal y1) eqn:E1, (isdecimal y2) eqn:E2, (isdecimal y3) eqn:E3,
      (isdecimal y4) eqn:E4; simpl; try discriminate.
    destruct (N.eqb_spec s1 95); simpl; try discriminate.
    destruct (isdecimal m1) eqn:E5, (isdecimal m2) eqn:E6; simpl; try discriminate.
    destruct (N.eqb_spec s2 95); simpl; try discriminate.
    intros H. injection H as <- <-. subst.
    exists [], after. repeat split; repeat constructor; assumption.
  - intros (before & after & -> & Hlen & Hy & Hm & Dy & Dm).
    destruct before; [|discriminate].
    destruct year as [|y1 [|y2 [|y3 [|y4 [|]]]]]; try discriminate.
    destruct month as [|m1 [|m2 [|]]]; try discriminate.
    repeat match goal with
           | H : Forall _ (_ :: _) |- _ => inversion H; clear H; subst
           end.
    simpl.
    repeat match goal with H : isdecimal _ = true |- _ => rewrite H; clear H end.
    reflexivity.
Qed.

Lemma pattern_at_cons c s i year month :
  pattern_at (c :: s) (S i) year month <-> pattern_at s i year month.
Proof.
  split.
  - intros (before & after & E & Hlen & H).
    destruct before as [|c' before]; [discriminate|].
    injection E as -> ->. injection Hlen as Hlen.
    exists before, after. tauto.
  - intros (before & after & -> & <- & H).
    exists (c :: before), after. tauto.
Qed.

Lemma re_search_some s year month :
  re_search isdecimal s = Some (year, month) <->
  exists i, first_pattern s i year month.
Proof.
  induction s as [|c s IH].
  - simpl. split; [discriminate|].
    intros (i & (before & after & E & _) & _).
    destruct before; simpl in E; try discriminate.
    destruct year; simpl in E; discriminate.
  - cbn [re_search]. destruct (match_pattern isdecimal (c :: s)) as [[y m]|] eqn:E.
    + apply match_pattern_spec in E. split.
      * intros H. injection H as -> ->. exists 0. split; [assumption|]. lia.
      * intros (i & Hat & Hfirst). destruct i as [|i].
        -- apply match_pattern_spec in Hat, E. congruence.
        -- exfalso. apply (Hfirst 0 y m); [lia|assumption].
    + rewrite IH. split.
      * intros (i & Hat & Hfirst). exists (S i). split.
        -- now apply pattern_at_cons.
        -- intros [|j] y' m' Hj Hat'.
           ++ apply match_pattern_spec in Hat'. congruence.
           ++ apply pattern_at_cons in Hat'. apply (Hfirst j y' m'); [lia|assumption].
      * intros (i & Hat & Hfirst). destruct i as [|i].
        -- apply match_pattern_spec in Hat. congruence.
        -- exists i. split; [now apply pattern_at_cons in Hat|].
           intros j y' m' Hj Hat'. apply (Hfirst (S j) y' m'); [lia|].
           now apply pattern_at_cons.
Qed.

Lemma re_search_none s :
  re_search isdecimal s = None <-> forall i year month, ~ pattern_at s i year month.
Proof.
  split.
  - intros E i year month Hat.
    assert (H : exists j y m, first_pattern s j y m).
    { clear E. revert year month Hat.
      induction i as [i IH] using lt_wf_ind. intros year month Hat.
      destruct (re_search isdecimal s) as [[y m]|] eqn:E.
      - apply re_search_some in E. destruct E as [j Hj]. eauto.
      - exists i, year, month. split; [assumption|].
        intros j y' m' Hj Hat'.
        destruct (IH j Hj y' m' Hat') as (k & y & m & Hk).
        assert (E' : re_search isdecimal s = Some (y, m))
          by (apply re_search_some; eauto).
        congruence. }
    destruct H as (j & y & m & Hj).
    assert (E' : re_search isdecimal s = Some (y, m)) by (apply re_search_some; eauto).
    congruence.
  - intros H. destruct (re_search isdecimal s) as [[y m]|] eqn:E; [|reflexivity].
    apply re_search_some in E. destruct E as (i & Hat & _).
    exfalso. exact (H i y m Hat).
Qed.

End Pattern.

Section Library.

Variable isdecimal : N -> bool.
Variable parse_number : str -> option float.

Local Abbreviation period_of := (LoaderSpec.period_of isdecimal).
Local Abbreviation tagged := (LoaderSpec.tagged parse_number).
Local Abbreviation load_step := (LoaderSpec.load_step isdecimal parse_number).

Lemma load_file_run filepath w :
  load_file isdecimal parse_number filepath w
  = match read_csv filepath with
    | inl e => (inl e, w)
    | inr d =>
        (inr (mkDataFrame
                (with_column "year_month" (with_column "source_file" (columns d)))
                (map (tagged (name filepath) (period_of (name filepath) d))
                   (values d))),
         w)
    end.
Proof.
  unfold load_file, period_of. destruct (read_csv filepath) as [e|d]; [reflexivity|].
  destruct (_extract_year_month_from_filename isdecimal (name filepath));
    [reflexivity|].
  destruct (existsb (String.eqb "開始年月") (columns d)); [|reflexivity].
  destruct (dropna (col raw_start_period d)); reflexivity.
Qed.

Lemma dropna_first {A} (nulls : list (option A)) p rest :
  Forall (eq None) nulls -> hd_error (dropna (nulls ++ Some p :: rest)) = Some p.
Proof. induction 1 as [|x nulls <- _ IH]; simpl; auto. Qed.

Lemma dropna_nulls {A} (nulls : list (option A)) :
  Forall (eq None) nulls -> dropna nulls = [].
Proof. induction 1 as [|x nulls <- _ IH]; simpl; auto. Qed.

Lemma existsb_label label labels :
  existsb (String.eqb label) labels = true <-> In label labels.
Proof.
  rewrite existsb_exists. split.
  - intros (x & Hx & E). apply String.eqb_eq in E. now subst.
  - intros H. exists label. split; [assumption|apply String.eqb_refl].
Qed.

(** C5. [load_file] derives one period per file: the digits of the
    leftmost occurrence of "four digits, underscore, two digits,
    underscore" in the file name, joined by a slash; without such an
    occurrence, the first non-null entry of the column 開始年月; null when
    the file has no such column or the column has no entry.  Every row it
    produces carries this period and the name of the file. *)
Theorem load_file_tags_rows :
  forall (filepath : Path) (d : DataFrame RawRow) (w : World),
    read_csv filepath = inr d ->
    exists (period : option str) (out : Ledger),
      load_file isdecimal parse_number filepath w = (inr out, w) /\
      length (values out) = length (values d) /\
      (forall r, In r (values out) ->
                 c_year_month r = period /\ c_source_file r = name filepath) /\
      (forall i year month,
          first_pattern isdecimal (name filepath) i year month ->
          period = Some (year ++ u "/" ++ month)) /\
      ((forall i year month, ~ pattern_at isdecimal (name filepath) i year month) ->
       (forall nulls p rest,
           In "開始年月"%string (columns d) ->
           col raw_start_period d = nulls ++ Some p :: rest ->
           Forall (eq None) nulls ->
           period = Some p) /\
       (In "開始年月"%string (columns d) ->
        Forall (eq None) (col raw_start_period d) ->
        period = None) /\
       (~ In "開始年月"%string (columns d) -> period = None)).
Proof.
  intros filepath d w Hread.
  exists (period_of (name filepath) d). eexists.
  rewrite load_file_run, Hread. split; [reflexivity|].
  cbn [values]. split; [apply length_map|]. split; [|split].
  - intros r Hr. apply in_map_iff in Hr. destruct Hr as (raw & <- & _).
    split; reflexivity.
  - intros i year month Hfirst.
    assert (E : re_search isdecimal (name filepath) = Some (year, month))
      by (apply re_search_some; eauto).
    unfold period_of, _extract_year_month_from_filename. now rewrite E.
  - intros Hnone. apply re_search_none in Hnone.
    unfold period_of, _extract_year_month_from_filename. rewrite Hnone.
    split; [|split].
    + intros nulls p rest Hcol E Hnulls.
      rewrite (proj2 (existsb_label _ _) Hcol), E. now apply dropna_first.
    + intros Hcol Hnulls.
      rewrite (proj2 (existsb_label _ _) Hcol), (dropna_nulls _ Hnulls).
      reflexivity.
    + intros Hcol. destruct (existsb _ (columns d)) eqn:E; [|reflexivity].
      apply existsb_label in E. contradiction.
Qed.

(** *** Loading the folder *)

Lemma load_step_returns dfs filepath w :
  exists dfs' w', load_step dfs filepath w = (inr dfs', w') /\
                  _df (self w') = _df (self w).
Proof.
  unfold load_step, try_except, bind. rewrite load_file_run.
  destruct (read_csv filepath) as [e|d]; eexists; eexists; split; reflexivity.
Qed.

Lemma load_loop_returns files :
  forall dfs w,
  exists dfs' w', for_each files load_step dfs w = (inr dfs', w') /\
                  _df (self w') = _df (self w).
Proof.
  induction files as [|f files IH]; intros dfs w; simpl.
  - eexists; eexists; split; reflexivity.
  - destruct (load_step_returns dfs f w) as (dfs1 & w1 & E1 & H1).
    rewrite (bind_returns _ E1).
    destruct (IH dfs1 w1) as (dfs2 & w2 & E2 & H2).
    exists dfs2, w2. split; [assumption|congruence].
Qed.

(** [load_all] always returns a Ledger, and caches the one it returns. *)
Lemma load_all_returns w :
  exists d w',
    load_all isdecimal parse_number w = (inr (Some d), w') /\
    _df (self w') = Some d.
Proof.
  unfold load_all.
  unfold bind at 1. unfold data_folder_exists at 1.
  destruct (data_folder w) as [files|]; cbn [negb].
  - unfold bind at 1. unfold data_folder_glob_csv at 1. cbn [data_folder].
    destruct (sorted _ _) as [|f csv_files] eqn:Efiles; cbn [series_empty].
    + eexists; eexists; split; reflexivity.
    + change (fun (dfs : list Ledger) (filepath : Path) => _) with load_step.
      unfold bind at 1. unfold set_loaded_files at 1. cbv beta iota.
      match goal with
      | |- context [bind (for_each ?l load_step ?a) _ ?s] =>
          destruct (load_loop_returns l a s) as (dfs & w1 & E & H)
      end.
      rewrite (bind_returns _ E).
      destruct dfs; eexists; eexists; split; reflexivity.
  - eexists; eexists; split; reflexivity.
Qed.

(** The property [df] returns the cached Ledger, loading it if there is
    none. *)
Lemma df_returns w :
  exists d w',
    df isdecimal parse_number w = (inr (Some d), w') /\
    _df (self w') = Some d /\
    (forall d0, _df (self w) = Some d0 -> d0 = d /\ w' = w).
Proof.
  unfold df. unfold bind at 1. unfold get_df at 1.
  destruct (_df (self w)) as [d0|] eqn:E.
  - exists d0, w. unfold bind, get_df. cbn. rewrite E.
    repeat split; congruence.
  - destruct (load_all_returns w) as (d & w' & Hload & Hd).
    exists d, w'. unfold bind at 1.
    rewrite (bind_returns _ Hload). unfold get_df. cbn. rewrite Hd.
    repeat split; discriminate.
Qed.

(** *** Periods *)










(** *** Loading when there is nothing to load *)

Lemma filter_nothing {A} (f : A -> bool) l :
  (forall x, In x l -> f x = false) -> filter f l = [].
Proof.
  induction l as [|x l IH]; intros H; simpl; [reflexivity|].
  rewrite (H x (or_introl eq_refl)). apply IH. intros; apply H; now right.
Qed.

(** C10. When the data folder is missing or holds no CSV file,
    [load_all] returns and caches the empty Ledger and leaves
    [_loaded_files] as it was, so the names of an earlier load stay
    listed next to the empty Ledger; [reload] on the same folder returns
    the empty Ledger with an empty list. *)
Theorem load_all_without_files_keeps_loaded_files :
  forall w : World,
    no_csv_files w ->
    exists w1 w2 : World,
      load_all isdecimal parse_number w = (inr (Some empty_ledger), w1) /\
      _df (self w1) = Some empty_ledger /\
      _loaded_files (self w1) = _loaded_files (self w) /\
      loaded_files w1 = (inr (_loaded_files (self w)), w1) /\
      reload isdecimal parse_number w = (inr (Some empty_ledger), w2) /\
      _df (self w2) = Some empty_ledger /\
      _loaded_files (self w2) = [].
Proof.
  intros [[cached loaded] folder out] H. unfold no_csv_files in H.
  cbn [data_folder] in H.
  unfold reload, load_all, bind, set_df, set_loaded_files, data_folder_exists,
    data_folder_mkdir, data_folder_glob_csv, get_df.
  cbv beta iota delta [self data_folder stdout _df _loaded_files].
  destruct folder as [files|]; cbv beta iota delta [negb].
  - rewrite (filter_nothing _ _ H). cbv beta iota delta [sorted series_empty].
    eexists; eexists. repeat split.
  - eexists; eexists. repeat split.
Qed.

End Library.

Lemma load_file_tags_rows_witness :
  exists out,
    load_file ascii_digit no_numbers example_path (fresh_world [example_path])
    = (inr out, fresh_world [example_path]) /\
    forall r, In r (values out) ->
              c_year_month r = Some (u "2025/08") /\
              c_source_file r = u "prefix_2025_08_suffix.csv".
Proof.
  destruct (load_file_tags_rows ascii_digit no_numbers example_path
              (mkDataFrame COLUMN_NAMES [example_raw_row])
              (fresh_world [example_path]) eq_refl)
    as (period & out & Hrun & _ & Htag & Hfirst & _).
  exists out. split; [exact Hrun|].
  assert (E : period = Some (u "2025/08")).
  { destruct (proj1 (re_search_some ascii_digit (name example_path)
                       (u "2025") (u "08")) eq_refl) as [i Hi].
    exact (Hfirst i _ _ Hi). }
  rewrite <- E. exact Htag.
Defined.

Lemma load_all_without_files_keeps_loaded_files_witness :
  _loaded_files (self emptied_world) = [u "prefix_2025_08_suffix.csv"] /\
  exists w1,
    load_all ascii_digit no_numbers emptied_world
    = (inr (Some (empty_ledger)), w1) /\
    values empty_ledger = [] /\
    _loaded_files (self w1) = [u "prefix_2025_08_suffix.csv"].
Proof.
  split; [reflexivity|].
  destruct (load_all_without_files_keeps_loaded_files ascii_digit no_numbers
              emptied_world)
    as (w1 & w2 & Hload & _ & Hfiles & _ & _).
  - simpl. intros p [].
  - exists w1. split; [exact Hload|]. split; [reflexivity|exact Hfiles].
Defined.

End LoaderFacts.

(** ** Sorting and filtering *)

Section SortFilter.

Context {A : Type} (leb : A -> A -> bool).
Hypothesis leb_total : forall a b, leb a b = false -> leb b a = true.
Hypothesis leb_trans : forall a b c, leb a b = true -> leb b c = true -> leb a c = true.

Lemma sorted_StronglySorted l :
  StronglySorted (fun a b => leb a b = true) (sorted leb l).
Proof.
  apply Sorted_StronglySorted.
  - intros a b c. apply leb_trans.
  - apply sorted_Sorted with (P := fun _ => True).
    + intros a b _ _. apply leb_total.
    + apply Forall_forall. trivial.
Qed.

Lemma insert_below x l :
  Forall (fun y => leb x y = true) l -> insert leb x l = x :: l.
Proof.
  destruct 1 as [|y l Hy _]; simpl; [reflexivity|]. now rewrite Hy.
Qed.

Lemma filter_insert (f : A -> bool) x l :
  StronglySorted (fun a b => leb a b = true) l ->
  filter f (insert leb x l)
  = if f x then insert leb x (filter f l) else filter f l.
Proof.
  induction 1 as [|y l Hs IH Hall]; simpl.
  - destruct (f x); reflexivity.
  - destruct (leb x y) eqn:Exy; simpl.
    + destruct (f x) eqn:Efx; [|reflexivity].
      symmetry. apply (insert_below x (if f y then y :: filter f l else filter f l)).
      assert (Hl : Forall (fun z => leb x z = true) (filter f l)).
      { apply Forall_forall. intros z Hz. apply filter_In in Hz.
        rewrite Forall_forall in Hall. apply leb_trans with y; [assumption|].
        apply Hall. tauto. }
      destruct (f y); [constructor|]; assumption.
    + rewrite IH. destruct (f y), (f x); simpl; try reflexivity.
      now rewrite Exy.
Qed.

(** Filtering before or after sorting gives the same list. *)
Lemma sorted_filter (f : A -> bool) l :
  sorted leb (filter f l) = filter f (sorted leb l).
Proof.
  induction l as [|x l IH]; simpl; [reflexivity|].
  rewrite filter_insert by apply sorted_StronglySorted.
  destruct (f x); simpl; now rewrite IH.
Qed.

End SortFilter.

(** ** More on the Loader *)

Module LoaderExtras.

Import Loader LoaderSpec LoaderFacts.

Section Library.

Variable isdecimal : N -> bool.
Variable parse_number : str -> option float.

Local Abbreviation load_step := (LoaderSpec.load_step isdecimal parse_number).
Local Abbreviation frames_of := (LoaderSpec.frames_of isdecimal parse_number).
Local Abbreviation rows_of_file := (LoaderSpec.rows_of_file isdecimal parse_number).
Local Abbreviation ledger_of := (LoaderSpec.ledger_of isdecimal parse_number).

(** The loop of [load_all], file by file. *)
Lemma load_loop_run files :
  forall dfs cached loaded folder out,
    for_each files load_step dfs
      (mkWorld (mkDataLoader cached loaded) folder out)
    = (inr (dfs ++ frames_of files),
       mkWorld (mkDataLoader cached (loaded ++ map name (filter parses files)))
               folder (out ++ warnings_of files)).
Proof.
  induction files as [|p files IH]; intros dfs cached loaded folder out.
  - unfold LoaderSpec.frames_of, warnings_of. simpl. now rewrite !app_nil_r.
  - cbn [for_each]. unfold bind at 1.
    unfold LoaderSpec.load_step at 1.
    unfold try_except, bind. rewrite load_file_run.
    unfold frames_of, warnings_of, parses. cbn [flat_map filter map].
    destruct (read_csv p) as [e|d].
    + unfold print, ret. cbn [self data_folder stdout].
      rewrite IH. cbn [app]. now rewrite <- app_assoc.
    + unfold get_loaded_files, set_loaded_files, ret.
      cbn [self data_folder stdout _df _loaded_files].
      rewrite IH. cbn [map app]. now rewrite <- !app_assoc.
Qed.

Lemma values_concat (dfs : list Ledger) :
  values (concat dfs) = flat_map (@values Row) dfs.
Proof. reflexivity. Qed.

Lemma values_frames_of files :
  flat_map (@values Row) (frames_of files) = flat_map rows_of_file files.
Proof.
  unfold frames_of, rows_of_file, LoaderSpec.frames_of, LoaderSpec.rows_of_file.
  induction files as [|p files IH]; simpl; [reflexivity|].
  destruct (read_csv p); simpl; [assumption|].
  now rewrite IH.
Qed.

Lemma values_ledger_of files :
  values (ledger_of files) = flat_map rows_of_file files.
Proof.
  unfold ledger_of, LoaderSpec.ledger_of. rewrite <- values_frames_of.
  fold (frames_of files). destruct (frames_of files); reflexivity.
Qed.

(** [load_all] on a folder that holds a CSV file. *)
Lemma load_all_run cached loaded folder out :
  csv_files (mkWorld (mkDataLoader cached loaded) folder out) <> [] ->
  load_all isdecimal parse_number (mkWorld (mkDataLoader cached loaded) folder out)
  = (inr (Some (ledger_of (csv_files (mkWorld (mkDataLoader cached loaded) folder out)))),
     mkWorld
       (mkDataLoader
          (Some (ledger_of (csv_files (mkWorld (mkDataLoader cached loaded) folder out))))
          (map name (filter parses
                       (csv_files (mkWorld (mkDataLoader cached loaded) folder out)))))
       folder
       (out ++ warnings_of (csv_files (mkWorld (mkDataLoader cached loaded) folder out)))).
Proof.
  unfold csv_files. cbv beta iota delta [data_folder]. intros Hfiles.
  unfold load_all, bind at 1, data_folder_exists.
  cbv beta iota delta [data_folder].
  destruct folder as [files|]; [|now contradiction Hfiles].
  cbv beta iota delta [negb].
  unfold bind at 1. unfold data_folder_glob_csv. cbv beta iota delta [data_folder].
  destruct (sorted _ (filter _ files)) as [|f rest] eqn:E; [now contradiction Hfiles|].
  cbv beta iota delta [series_empty].
  unfold bind at 1. unfold set_loaded_files at 1.
  cbv beta iota delta [self data_folder stdout _df _loaded_files].
  change (fun (dfs : list Ledger) (filepath : Path) => _) with load_step.
  rewrite (bind_returns _ (load_loop_run (f :: rest) [] cached [] (Some files) out)).
  cbn [app]. unfold ledger_of, LoaderSpec.ledger_of. fold (frames_of (f :: rest)).
  destruct (frames_of (f :: rest)); reflexivity.
Qed.

(** [load_all] on a folder without a CSV file. *)
Lemma load_all_nothing cached loaded folder out :
  csv_files (mkWorld (mkDataLoader cached loaded) folder out) = [] ->
  load_all isdecimal parse_number (mkWorld (mkDataLoader cached loaded) folder out)
  = (inr (Some LoaderSpec.empty_ledger),
     mkWorld (mkDataLoader (Some LoaderSpec.empty_ledger) loaded)
             (Some (match folder with Some l => l | None => [] end)) out).
Proof.
  unfold csv_files. cbv beta iota delta [data_folder]. intros Hfiles.
  unfold load_all, bind, data_folder_exists, data_folder_mkdir,
    data_folder_glob_csv, set_df, get_df.
  cbv beta iota delta [self data_folder stdout _df _loaded_files].
  destruct folder as [files|]; cbv beta iota delta [negb]; [|reflexivity].
  rewrite Hfiles. reflexivity.
Qed.

Lemma ledger_of_nil : ledger_of [] = LoaderSpec.empty_ledger.
Proof. reflexivity. Qed.

(** [reload], whatever the folder holds. *)
Lemma reload_run cached loaded folder out :
  let files := csv_files (mkWorld (mkDataLoader cached loaded) folder out) in
  reload isdecimal parse_number (mkWorld (mkDataLoader cached loaded) folder out)
  = (inr (Some (ledger_of files)),
     mkWorld (mkDataLoader (Some (ledger_of files)) (map name (filter parses files)))
             (Some (match folder with Some l => l | None => [] end))
             (out ++ warnings_of files)).
Proof.
  intros files. unfold reload.
  unfold bind at 1. unfold set_df at 1.
  unfold bind at 1. unfold set_loaded_files at 1.
  cbv beta iota delta [self data_folder stdout _df _loaded_files].
  assert (E : csv_files (mkWorld (mkDataLoader None []) folder out) = files)
    by reflexivity.
  destruct files as [|f rest] eqn:Efiles.
  - rewrite (load_all_nothing None [] folder out E).
    unfold warnings_of. cbn [flat_map filter map]. rewrite app_nil_r.
    reflexivity.
  - rewrite load_all_run; rewrite E; [|discriminate].
    destruct folder as [l|]; [reflexivity|discriminate].
Qed.

Lemma name_leb_total (p q : Path) :
  str_leb (name p) (name q) = false -> str_leb (name q) (name p) = true.
Proof. apply str_leb_total. Qed.

Lemma name_leb_trans (p q r : Path) :
  str_leb (name p) (name q) = true -> str_leb (name q) (name r) = true ->
  str_leb (name p) (name r) = true.
Proof. apply str_leb_trans. Qed.

Lemma csv_files_sorted w : StronglySorted name_le (csv_files w).
Proof.
  unfold csv_files.
  apply (sorted_StronglySorted (fun p q : Path => str_leb (name p) (name q))
           name_leb_total name_leb_trans).
Qed.

Lemma csv_files_In w p :
  In p (csv_files w) <->
  In p (folder_files w) /\ endswith (u ".csv") (name p) = true.
Proof. unfold csv_files. rewrite sorted_In, filter_In. reflexivity. Qed.

(** X1. [reload] never raises.  It visits the files of the folder whose
    name ends in [.csv] in ascending order of name; the Ledger is made of
    the rows of those that parse, file after file in that order and in
    file order within a file; [loaded_files] lists the names of those
    that parse, in that order; and each file that does not parse adds
    one warning to the output and nothing to the Ledger. *)
Theorem reload_collects_the_parsing_files :
  forall w : World,
  exists (ledger : Ledger) (w' : World),
    reload isdecimal parse_number w = (inr (Some ledger), w') /\
    _df (self w') = Some ledger /\
    (forall p, In p (csv_files w) <->
               In p (folder_files w) /\ endswith (u ".csv") (name p) = true) /\
    StronglySorted name_le (csv_files w) /\
    values ledger = flat_map rows_of_file (csv_files w) /\
    _loaded_files (self w') = map name (filter parses (csv_files w)) /\
    stdout w' = stdout w ++ warnings_of (csv_files w).
Proof.
  intros [[cached loaded] folder out]. rewrite reload_run. cbv zeta.
  eexists; eexists. split; [reflexivity|]. cbn [self _df _loaded_files stdout].
  split; [reflexivity|]. split; [apply csv_files_In|].
  split; [apply csv_files_sorted|]. split; [apply values_ledger_of|].
  split; reflexivity.
Qed.

(** X2. When the folder holds at least one CSV file, [load_all] does
    what [reload] does: the Ledger and the file list of an earlier load
    are replaced, whatever they were. *)
Theorem load_all_reloads_when_files_exist :
  forall w : World,
    csv_files w <> [] ->
    load_all isdecimal parse_number w = reload isdecimal parse_number w.
Proof.
  intros [[cached loaded] folder out] H.
  rewrite reload_run, load_all_run by exact H. cbv zeta.
  revert H. unfold csv_files. cbv beta iota delta [data_folder].
  destruct folder; [reflexivity|]. intros H. now contradiction H.
Qed.

Lemma rows_of_file_source p r :
  In r (rows_of_file p) -> parses p = true /\ c_source_file r = name p.
Proof.
  unfold rows_of_file, LoaderSpec.rows_of_file, parses.
  destruct (read_csv p) as [e|d]; [contradiction|].
  intros H. apply in_map_iff in H. destruct H as (raw & <- & _). now split.
Qed.

(** X3. After [reload], the source file of every row of the Ledger is
    one of [loaded_files]. *)
Theorem reload_rows_come_from_loaded_files :
  forall w : World,
  exists (ledger : Ledger) (w' : World),
    reload isdecimal parse_number w = (inr (Some ledger), w') /\
    _df (self w') = Some ledger /\
    forall r, In r (values ledger) ->
              In (c_source_file r) (_loaded_files (self w')).
Proof.
  intros [[cached loaded] folder out]. rewrite reload_run. cbv zeta.
  eexists; eexists. split; [reflexivity|]. cbn [self _df _loaded_files].
  split; [reflexivity|].
  intros r Hr. rewrite values_ledger_of in Hr. apply in_flat_map in Hr.
  destruct Hr as (p & Hp & Hr). apply rows_of_file_source in Hr.
  destruct Hr as [Hparses ->]. apply in_map. apply filter_In. now split.
Qed.

(** X4. A second [reload] of a folder that did not change returns the
    same Ledger and leaves the same [loaded_files]. *)
Theorem reload_twice :
  forall w : World,
  exists (ledger : Ledger) (w1 w2 : World),
    reload isdecimal parse_number w = (inr (Some ledger), w1) /\
    reload isdecimal parse_number w1 = (inr (Some ledger), w2) /\
    _df (self w2) = _df (self w1) /\
    _loaded_files (self w2) = _loaded_files (self w1) /\
    data_folder w2 = data_folder w1.
Proof.
  intros [[cached loaded] folder out]. rewrite reload_run. cbv zeta.
  eexists; eexists; eexists. split; [reflexivity|].
  rewrite reload_run. cbv zeta.
  assert (E : forall c l o c' l' o',
             csv_files (mkWorld (mkDataLoader c l)
                          (Some match folder with Some x => x | None => [] end) o)
             = csv_files (mkWorld (mkDataLoader c' l') folder o')).
  { intros. unfold csv_files. cbv beta iota delta [data_folder].
    destruct folder; reflexivity. }
  rewrite (E _ _ _ cached loaded out).
  split; [reflexivity|]. cbn [self _df _loaded_files data_folder].
  repeat split.
Qed.

Lemma frames_of_parsing files :
  frames_of (filter parses files) = frames_of files.
Proof.
  unfold frames_of, LoaderSpec.frames_of, parses.
  induction files as [|p files IH]; simpl; [reflexivity|].
  destruct (read_csv p) eqn:E; simpl; [assumption|].
  rewrite E. simpl. now rewrite IH.
Qed.

Lemma warnings_of_parsing files : warnings_of (filter parses files) = [].
Proof.
  unfold warnings_of, parses.
  induction files as [|p files IH]; simpl; [reflexivity|].
  destruct (read_csv p) eqn:E; simpl; [assumption|].
  rewrite E. simpl. assumption.
Qed.

Lemma filter_idem {A} (f : A -> bool) l : filter f (filter f l) = filter f l.
Proof.
  induction l as [|x l IH]; simpl; [reflexivity|].
  destruct (f x) eqn:E; simpl; [|assumption]. now rewrite E, IH.
Qed.

Lemma filter_comm {A} (f g : A -> bool) l :
  filter f (filter g l) = filter g (filter f l).
Proof.
  induction l as [|x l IH]; simpl; [reflexivity|].
  destruct (f x) eqn:Ef, (g x) eqn:Eg; simpl; rewrite ?Ef, ?Eg, IH; reflexivity.
Qed.

Lemma csv_files_without_broken w :
  csv_files (without_broken_files w) = filter parses (csv_files w).
Proof.
  destruct w as [loader [files|] out]; unfold csv_files, without_broken_files;
    cbv beta iota delta [data_folder]; [|reflexivity].
  rewrite filter_comm.
  apply (sorted_filter (fun p q : Path => str_leb (name p) (name q))
           name_leb_total name_leb_trans).
Qed.

(** X5. Files that do not parse are skipped as if they were not there:
    [reload] returns the same Ledger and leaves the same [loaded_files]
    as it does on the folder without them, where it prints nothing. *)
Theorem reload_skips_broken_files :
  forall w : World,
  exists (ledger : Ledger) (w1 w2 : World),
    reload isdecimal parse_number w = (inr (Some ledger), w1) /\
    reload isdecimal parse_number (without_broken_files w)
    = (inr (Some ledger), w2) /\
    _loaded_files (self w2) = _loaded_files (self w1) /\
    stdout w2 = stdout w.
Proof.
  intros [[cached loaded] folder out].
  assert (E := csv_files_without_broken
                 (mkWorld (mkDataLoader cached loaded) folder out)).
  unfold without_broken_files in *.
  cbv beta iota delta [self data_folder stdout] in *.
  rewrite !reload_run. cbv zeta. rewrite E.
  set (w := mkWorld (mkDataLoader cached loaded) folder out).
  unfold ledger_of, LoaderSpec.ledger_of.
  fold (frames_of (filter parses (csv_files w))). fold (frames_of (csv_files w)).
  rewrite frames_of_parsing, warnings_of_parsing, filter_idem, app_nil_r.
  eexists; eexists; eexists. repeat split.
Qed.

(** X6. The property [df] loads the folder at most once: it returns a
    Ledger and caches it, and from then on returns that Ledger and leaves
    everything as it is, whatever the folder has come to hold. *)
Theorem df_is_cached :
  forall w : World,
  exists (d : Ledger) (w' : World),
    df isdecimal parse_number w = (inr (Some d), w') /\
    forall folder out,
      df isdecimal parse_number (mkWorld (self w') folder out)
      = (inr (Some d), mkWorld (self w') folder out).
Proof.
  intros w. destruct (df_returns isdecimal parse_number w) as (d & w' & Hdf & Hd & _).
  exists d, w'. split; [assumption|].
  intros folder out. unfold df, bind, get_df. cbn [self]. rewrite Hd.
  cbn. now rewrite Hd.
Qed.

Lemma fillna0_not_nan f : is_nan (fillna0 f) = false.
Proof. unfold fillna0. destruct (is_nan f) eqn:E; [reflexivity|exact E]. Qed.

(** X7. No monetary value of a row produced by [load_file] is NaN,
    whatever the cells of the file held. *)
Theorem load_file_leaves_no_nan :
  forall (filepath : Path) (d : DataFrame RawRow) (w : World),
    read_csv filepath = inr d ->
    exists out : Ledger,
      load_file isdecimal parse_number filepath w = (inr out, w) /\
      forall r, In r (values out) ->
                is_nan (c_prior_balance r) = false /\
                is_nan (c_debit r) = false /\
                is_nan (c_credit r) = false /\
                is_nan (c_balance r) = false.
Proof.
  intros filepath d w Hread. rewrite load_file_run, Hread.
  eexists. split; [reflexivity|]. cbn [values].
  intros r Hr. apply in_map_iff in Hr. destruct Hr as (raw & <- & _).
  cbn. repeat split; apply fillna0_not_nan.
Qed.

(** *** Departments *)

Definition pair_eqb (a b : Z * str) : bool :=
  Z.eqb (fst a) (fst b) && str_eqb (snd a) (snd b).

Lemma pair_eqb_eq a b : pair_eqb a b = true <-> a = b.
Proof.
  destruct a as [c n], b as [c' n']. unfold pair_eqb. cbn [fst snd].
  rewrite andb_true_iff, Z.eqb_eq, str_eqb_eq. split.
  - intros [-> ->]. reflexivity.
  - intros E. injection E as -> ->. now split.
Qed.

Lemma combine_fst_snd {A B} (l : list (A * B)) :
  combine (map fst l) (map snd l) = l.
Proof.
  induction l as [|[a b] l IH]; simpl; [reflexivity|]. now rewrite IH.
Qed.

Lemma Z_leb_total a b : Z.leb a b = false -> Z.leb b a = true.
Proof. rewrite Z.leb_gt, Z.leb_le. lia. Qed.

Lemma get_departments_run w :
  exists d w',
    get_departments isdecimal parse_number w
    = (inr (sorted (fun a b => Z.leb (fst a) (fst b))
              (unique pair_eqb (map department_of (values d)))), w') /\
    _df (self w') = Some d /\
    (forall d0, _df (self w) = Some d0 -> d0 = d /\ w' = w).
Proof.
  destruct (df_returns isdecimal parse_number w) as (d & w' & Hdf & Hd & Hcached).
  exists d, w'. split; [|split; assumption].
  unfold get_departments. rewrite (bind_returns _ Hdf).
  unfold empty, drop_duplicates, select, sort_values, col. cbn [values].
  destruct (values d) as [|r rows].
  - reflexivity.
  - rewrite combine_fst_snd. reflexivity.
Qed.

(** X8. [get_departments] returns the pairs of department code and
    name that occur in the Ledger, each pair once, in ascending order of
    code; a code that goes by two names is listed with both. *)
Theorem get_departments_distinct_ascending :
  forall w : World,
  exists (d : Ledger) (departments : list (Z * str)) (w' : World),
    get_departments isdecimal parse_number w = (inr departments, w') /\
    _df (self w') = Some d /\
    (forall code name,
        In (code, name) departments <->
        exists r, In r (values d) /\ c_dept_code r = code /\ c_dept_name r = name) /\
    NoDup departments /\
    StronglySorted code_le departments.
Proof.
  intros w. destruct (get_departments_run w) as (d & w' & Hrun & Hd & _).
  eexists d, _, w'. split; [exact Hrun|]. split; [exact Hd|].
  split; [|split].
  - intros code name.
    rewrite sorted_In, (unique_In pair_eqb pair_eqb_eq), in_map_iff.
    unfold department_of. split.
    + intros (r & E & Hr). injection E as <- <-. eauto.
    + intros (r & Hr & <- & <-). eauto.
  - eapply Permutation_NoDup; [apply sorted_perm|].
    apply unique_NoDup. exact pair_eqb_eq.
  - apply Sorted_StronglySorted.
    + intros a b c. unfold code_le. lia.
    + apply AggregatorFacts.Sorted_weaken with
        (R := fun a b => Z.leb (fst a) (fst b) = true).
      * intros a b H. apply Z.leb_le in H. exact H.
      * apply sorted_Sorted with (P := fun _ => True).
        -- intros a b _ _. apply Z_leb_total.
        -- apply Forall_forall. trivial.
Qed.

(** *** Periods and files *)





End Library.

Section Pattern.

Variable isdecimal : N -> bool.

(** X10. Whenever [_extract_year_month_from_filename] returns a period,
    it is four decimal digits, a slash and two decimal digits, and the
    file name holds these digits followed by an underscore each. *)
Theorem extracted_period_is_in_the_file_name :
  forall filename period : str,
    _extract_year_month_from_filename isdecimal filename = Some period ->
    exists year month before after : str,
      period = year ++ u "/" ++ month /\
      length year = 4 /\ length month = 2 /\
      Forall (fun c => isdecimal c = true) year /\
      Forall (fun c => isdecimal c = true) month /\
      filename = before ++ year ++ [95%N] ++ month ++ [95%N] ++ after.
Proof.
  intros filename period. unfold _extract_year_month_from_filename.
  destruct (re_search isdecimal filename) as [[year month]|] eqn:E; [|discriminate].
  intros H. injection H as <-.
  apply re_search_some in E.
  destruct E as (i & (before & after & Hname & _ & Hy & Hm & Dy & Dm) & _).
  exists year, month, before, after. tauto.
Qed.

End Pattern.

Lemma load_all_reloads_when_files_exist_witness :
  load_all ascii_digit no_numbers (fresh_world [example_path])
  = reload ascii_digit no_numbers (fresh_world [example_path]).
Proof.
  apply load_all_reloads_when_files_exist.
  vm_compute. discriminate.
Defined.

Lemma load_file_leaves_no_nan_witness :
  exists out : Ledger,
    load_file ascii_digit no_numbers example_path (fresh_world [example_path])
    = (inr out, fresh_world [example_path]) /\
    map c_debit (values out) = [0%float] /\
    map c_credit (values out) = [0%float] /\
    map c_balance (values out) = [10000000%float].
Proof.
  destruct (load_file_leaves_no_nan ascii_digit no_numbers example_path
              (mkDataFrame COLUMN_NAMES [example_raw_row])
              (fresh_world [example_path]) eq_refl) as (out & Hrun & _).
  exists out. split; [exact Hrun|].
  rewrite load_file_run in Hrun. cbn [read_csv example_path] in Hrun.
  injection Hrun as <-. repeat split.
Defined.

Lemma extracted_period_is_in_the_file_name_witness :
  exists year month before after : str,
    u "2025/08" = year ++ u "/" ++ month /\
    length year = 4 /\ length month = 2 /\
    Forall (fun c => ascii_digit c = true) year /\
    Forall (fun c => ascii_digit c = true) month /\
    u "prefix_2025_08_suffix.csv"
    = before ++ year ++ [95%N] ++ month ++ [95%N] ++ after.
Proof.
  apply (extracted_period_is_in_the_file_name ascii_digit
           (u "prefix_2025_08_suffix.csv") (u "2025/08")).
  reflexivity.
Defined.

End LoaderExtras.

(** ** More on the Aggregator *)

Module AggregatorExtras.

Import Aggregator AggregatorSpec AggregatorFacts.

Local Open Scope Z_scope.

(** X11. [get_cost_structure] always returns.  Its three components are
    looked up among the report-type-1 rows in scope and its
    manufacturing cost among the report-type-0 rows; for one department
    each is the first-match balance, company-wide each is the sum of the
    per-department first-match balances. *)
Theorem get_cost_structure_sources :
  forall (self : DataProcessor) (dept_code : option Z) (year_month : option str),
  exists c : CostStructure,
    get_cost_structure dept_code year_month self = (inr c, self) /\
    material_cost c = lookup dept_code (scope dept_code year_month 1 self) 5419 /\
    labor_cost c = lookup dept_code (scope dept_code year_month 1 self) 5439 /\
    expense c = lookup dept_code (scope dept_code year_month 1 self) 5469 /\
    mfg_cost c = lookup dept_code (scope dept_code year_month 0 self) 5299.
Proof.
  intros self dept_code year_month. eexists.
  split; [apply get_cost_structure_run|]. repeat split.
Qed.



Lemma scope_of_department code year_month report_type self :
  scope (Some code) year_month report_type self
  = of_department code (scope None year_month report_type self).
Proof.
  unfold scope, of_report, of_department. cbn [in_department].
  destruct year_month as [ym|]; cbn [in_period].
  - unfold of_department.
    rewrite (LoaderExtras.filter_comm (fun r => c_dept_code r =? code)
               (fun r => c_report_type r =? report_type)).
    f_equal. apply LoaderExtras.filter_comm.
  - unfold of_department. apply LoaderExtras.filter_comm.
Qed.


(** X14. The record of a department in [get_cost_breakdown_by_dept]
    shows what [get_cost_structure] returns for that department and the
    same period. *)
Theorem cost_breakdown_agrees_with_cost_structure :
  forall (self : DataProcessor) (year_month : option str),
  exists out : DataFrame CostRecord,
    get_cost_breakdown_by_dept year_month self = (inr out, self) /\
    forall record,
      In record (values out) ->
      exists c : CostStructure,
        get_cost_structure (Some (k_dept_code record)) year_month self
        = (inr c, self) /\
        material_cost c = k_material record /\
        labor_cost c = k_labor record /\
        expense c = k_expense record /\
        mfg_cost c = k_mfg record.
Proof.
  intros self year_month. eexists.
  split; [apply get_cost_breakdown_by_dept_run|]. cbn [values of_records].
  intros record Hrecord. apply in_map_iff in Hrecord.
  destruct Hrecord as (code & <- & _).
  eexists. split; [apply get_cost_structure_run|].
  cbn [k_dept_code cost_record]. rewrite !scope_of_department.
  repeat split.
Qed.

Lemma by_dept_then_account_total a b :
  by_dept_then_account a b = false -> by_dept_then_account b a = true.
Proof.
  unfold by_dept_then_account.
  rewrite (str_compare_antisym (t_dept_name a) (t_dept_name b)).
  destruct (str_compare (t_dept_name a) (t_dept_name b)); simpl;
    try congruence.
  apply str_leb_total.
Qed.

Lemma by_dept_then_account_order a b :
  by_dept_then_account a b = true -> detail_order a b.
Proof.
  unfold by_dept_then_account, detail_order.
  destruct (str_compare (t_dept_name a) (t_dept_name b)) eqn:E;
    try discriminate.
  - apply str_compare_eq in E. intros H. right. now split.
  - intros _. now left.
Qed.

(** X15. [get_detail_data] always returns a table with the six display
    columns; its rows are the rows in scope of the requested report
    type, projected on these columns, none lost and none added, each
    followed by a row with a greater department name or with the same
    department name and an account name that is not smaller. *)
Theorem get_detail_data_sorted_projection :
  forall (self : DataProcessor) (dept_code : option Z) (year_month : option str)
         (output_type : Z),
  exists out : DataFrame DetailRow,
    get_detail_data dept_code year_month output_type self = (inr out, self) /\
    columns out = display_cols /\
    Permutation (values out)
      (map display_row (scope dept_code year_month output_type self)) /\
    Sorted detail_order (values out).
Proof.
  intros self dept_code year_month output_type. eexists.
  split; [apply get_detail_data_run|]. cbn [values columns].
  split; [reflexivity|]. split.
  - symmetry. apply sorted_perm.
  - apply Sorted_weaken with (R := fun a b => by_dept_then_account a b = true).
    + apply by_dept_then_account_order.
    + apply sorted_Sorted with (P := fun _ => True).
      * intros a b _ _. apply by_dept_then_account_total.
      * apply Forall_forall. trivial.
Qed.

Lemma first_match_first rows before r after account_code c :
  rows = before ++ r :: after ->
  Forall (fun x => c_account_code x <> account_code) before ->
  c_account_code r = account_code ->
  first_match rows account_code c = value_of c r.
Proof.
  intros -> Hbefore Hr. induction Hbefore as [|x before Hx _ IH]; simpl.
  - now rewrite (proj2 (Z.eqb_eq _ _) Hr).
  - apply Z.eqb_neq in Hx. now rewrite Hx.
Qed.

Lemma filter_first {A} (f : A -> bool) before r after :
  f r = true ->
  filter f (before ++ r :: after) = filter f before ++ r :: filter f after.
Proof. intros H. rewrite filter_app. simpl. now rewrite H. Qed.

(** X16. Without a period, [calculate_kpi] for one department does not
    add the periods up: each amount is the balance of the first row of
    the Ledger that has the department, report type 0 and the amount's
    account code, whatever period that row belongs to. *)
Theorem calculate_kpi_takes_the_first_period :
  forall (self : DataProcessor) (code account_code : Z) (amount : KPI -> float)
         (before after : list Row) (r : Row),
    In (account_code, amount) kpi_amounts ->
    values (df self) = before ++ r :: after ->
    c_dept_code r = code ->
    c_report_type r = 0 ->
    c_account_code r = account_code ->
    Forall (fun x => ~ (c_dept_code x = code /\ c_report_type x = 0 /\
                        c_account_code x = account_code)) before ->
    exists kpi : KPI,
      calculate_kpi (Some code) None self = (inr kpi, self) /\
      amount kpi = c_balance r.
Proof.
  intros self code account_code amount before after r Hamount Hrows Hcode Hreport
    Haccount Hbefore.
  eexists. split; [apply calculate_kpi_run|].
  assert (E : first_match (scope (Some code) None 0 self) account_code balance
              = c_balance r).
  { unfold scope, of_report, in_period, in_department, of_department.
    rewrite Hrows.
    rewrite (filter_first (fun x => c_dept_code x =? code) before r after)
      by now apply Z.eqb_eq.
    rewrite (filter_first (fun x => c_report_type x =? 0)) by now apply Z.eqb_eq.
    apply first_match_first with
      (before := filter (fun x => c_report_type x =? 0)
                   (filter (fun x => c_dept_code x =? code) before))
      (after := filter (fun x => c_report_type x =? 0)
                  (filter (fun x => c_dept_code x =? code) after));
      [reflexivity| |assumption].
    apply Forall_forall. intros x Hx.
    apply filter_In in Hx. destruct Hx as [Hx Hx0].
    apply filter_In in Hx. destruct Hx as [Hx Hxc].
    rewrite Forall_forall in Hbefore. specialize (Hbefore x Hx).
    apply Z.eqb_eq in Hx0, Hxc. tauto. }
  unfold kpi_amounts in Hamount. simpl in Hamount.
  repeat (destruct Hamount as [Hamount|Hamount];
          [injection Hamount as <- <-; exact E|]).
  contradiction.
Qed.

Lemma calculate_kpi_takes_the_first_period_witness :
  exists kpi : KPI,
    calculate_kpi (Some 210) None two_period_ledger = (inr kpi, two_period_ledger) /\
    revenue kpi = 10000000%float.
Proof.
  apply (calculate_kpi_takes_the_first_period two_period_ledger 210 4199 revenue
           [] (match values (df two_period_ledger) with
               | _ :: after => after
               | [] => []
               end)
           (example_row 210 "Kenki" 4199 10000000)).
  - left. reflexivity.
  - reflexivity.
  - reflexivity.
  - reflexivity.
  - reflexivity.
  - constructor.
Defined.

Lemma unique_from_snoc {A} (eqb : A -> A -> bool)
    (eqb_eq : forall a b, eqb a b = true <-> a = b) x l :
  forall seen,
    In x l \/ In x seen ->
    unique_from eqb seen (l ++ [x]) = unique_from eqb seen l.
Proof.
  induction l as [|y l IH]; intros seen H; simpl.
  - destruct H as [[]|H].
    now rewrite (proj2 (existsb_eqb_In eqb eqb_eq x seen) H).
  - destruct (existsb (eqb y) seen) eqn:E.
    + apply IH. destruct H as [[->|H]|H]; auto.
      right. now apply (existsb_eqb_In eqb eqb_eq).
    + f_equal. apply IH. destruct H as [[->|H]|H]; simpl; auto.
Qed.

Lemma first_match_app_found rows more account_code c :
  (exists x, In x rows /\ c_account_code x = account_code) ->
  first_match (rows ++ more) account_code c = first_match rows account_code c.
Proof.
  intros (x & Hx & E). induction rows as [|y rows IH]; simpl; [contradiction|].
  destruct (c_account_code y =? account_code) eqn:Ey; [reflexivity|].
  apply IH. destruct Hx as [->|Hx]; [|assumption].
  apply Z.eqb_neq in Ey. contradiction.
Qed.

Lemma first_match_app_other rows r account_code c :
  c_account_code r <> account_code ->
  first_match (rows ++ [r]) account_code c = first_match rows account_code c.
Proof.
  intros H. induction rows as [|y rows IH]; simpl.
  - apply Z.eqb_neq in H. now rewrite H.
  - now rewrite IH.
Qed.

Lemma kpi_of_ext f g : (forall k, f k = g k) -> kpi_of f = kpi_of g.
Proof. intros H. unfold kpi_of. now rewrite !H. Qed.

Lemma repeated_row_first_match rows r code account_code c :
  (exists x, In x rows /\ c_dept_code x = c_dept_code r /\
             c_account_code x = c_account_code r) ->
  first_match (of_department code (rows ++ [r])) account_code c
  = first_match (of_department code rows) account_code c.
Proof.
  intros (x & Hx & Hdept & Haccount).
  unfold of_department. rewrite filter_app. cbn [filter].
  destruct (c_dept_code r =? code) eqn:E; [|now rewrite app_nil_r].
  apply Z.eqb_eq in E.
  destruct (Z.eq_dec (c_account_code r) account_code) as [Ek|Ek].
  - apply first_match_app_found. exists x. split; [|congruence].
    apply filter_In. split; [assumption|]. apply Z.eqb_eq. congruence.
  - now apply first_match_app_other.
Qed.

Lemma repeated_row_departments rows r :
  (exists x, In x rows /\ c_dept_code x = c_dept_code r) ->
  departments (rows ++ [r]) = departments rows.
Proof.
  intros (x & Hx & E). unfold departments, unique. rewrite map_app. cbn [map].
  apply (unique_from_snoc Z.eqb Z.eqb_eq). left.
  rewrite <- E. now apply in_map.
Qed.

Lemma repeated_row_lookup dept_code rows r account_code :
  (exists x, In x rows /\ c_dept_code x = c_dept_code r /\
             c_account_code x = c_account_code r) ->
  lookup dept_code (match dept_code with
                    | Some code => of_department code (rows ++ [r])
                    | None => rows ++ [r]
                    end) account_code
  = lookup dept_code (match dept_code with
                      | Some code => of_department code rows
                      | None => rows
                      end) account_code.
Proof.
  intros H. destruct dept_code as [code|]; cbn [lookup].
  - now apply repeated_row_first_match.
  - unfold sum_by_department. rewrite repeated_row_departments.
    + generalize (departments rows) 0%float.
      induction l as [|d l IH]; intros acc; simpl; [reflexivity|].
      rewrite IH. now rewrite repeated_row_first_match.
    + destruct H as (x & Hx & E & _). eauto.
Qed.

Lemma scope_by_department dept_code year_month report_type self :
  scope dept_code year_month report_type self
  = match dept_code with
    | Some code => of_department code (scope None year_month report_type self)
    | None => scope None year_month report_type self
    end.
Proof. destruct dept_code; [apply scope_of_department|reflexivity]. Qed.

(** X17. A repeated line does not change the KPIs: when a row is added
    at the end of the Ledger and an earlier main-account row of the
    period already has its department code and its account code,
    [calculate_kpi] returns what it returned before, for one department
    and company-wide. *)
Theorem calculate_kpi_ignores_a_repeated_row :
  forall (self : DataProcessor) (dept_code : option Z) (year_month : option str)
         (r : Row),
    (exists x, In x (scope None year_month 0 self) /\
               c_dept_code x = c_dept_code r /\
               c_account_code x = c_account_code r) ->
    exists kpi : KPI,
      calculate_kpi dept_code year_month self = (inr kpi, self) /\
      calculate_kpi dept_code year_month (with_row self r)
      = (inr kpi, with_row self r).
Proof.
  intros self dept_code year_month r H.
  eexists. split; [apply calculate_kpi_run|].
  rewrite calculate_kpi_run. f_equal. f_equal. apply kpi_of_ext. intros k.
  rewrite (scope_by_department dept_code year_month 0 (with_row self r)).
  rewrite (scope_by_department dept_code year_month 0 self).
  assert (E : scope None year_month 0 (with_row self r)
              = scope None year_month 0 self
                ++ of_report 0 (in_period year_month [r])).
  { unfold scope, with_row. cbn [df values in_department].
    unfold of_report. destruct year_month; cbn [in_period];
      now rewrite ?filter_app. }
  rewrite E.
  destruct (of_report 0 (in_period year_month [r])) as [|r' rest] eqn:Er.
  - now rewrite app_nil_r.
  - assert (r' = r /\ rest = []) as [-> ->].
    { unfold of_report in Er. destruct year_month; cbn [in_period filter] in Er.
      - destruct (period_is s r); cbn [filter] in Er; [|discriminate].
        destruct (c_report_type r =? 0); [|discriminate].
        injection Er as <- <-. now split.
      - destruct (c_report_type r =? 0); [|discriminate].
        injection Er as <- <-. now split. }
    now apply repeated_row_lookup.
Qed.

Lemma calculate_kpi_ignores_a_repeated_row_witness :
  exists kpi : KPI,
    calculate_kpi None (Some (u "2025/07")) example_ledger
    = (inr kpi, example_ledger) /\
    calculate_kpi None (Some (u "2025/07"))
      (with_row example_ledger (example_row 210 "Kenki" 4199 99))
    = (inr kpi, with_row example_ledger (example_row 210 "Kenki" 4199 99)).
Proof.
  apply (calculate_kpi_ignores_a_repeated_row example_ledger None
           (Some (u "2025/07")) (example_row 210 "Kenki" 4199 99)).
  exists (example_row 210 "Kenki" 4199 10000000).
  split; [|split]; [left|..]; reflexivity.
Defined.

End AggregatorExtras.

(** ** The selection of the detail view *)

Module DetailViewExtras.

Import Loader LoaderSpec LoaderFacts LoaderExtras DetailView.

Lemma first_code_named_none selected departments :
  first_code_named selected departments = None <->
  forall code, ~ In (code, selected) departments.
Proof.
  induction departments as [|[c n] l IH]; simpl.
  - split; [intros _ code []|reflexivity].
  - destruct (str_eqb n selected) eqn:E.
    + apply str_eqb_eq in E. subst. split; [discriminate|].
      intros H. exfalso. apply (H c). now left.
    + rewrite IH. split.
      * intros H code [Heq|Hin]; [|exact (H code Hin)].
        injection Heq as -> ->.
        rewrite (proj2 (str_eqb_eq selected selected) eq_refl) in E. discriminate.
      * intros H code Hin. apply (H code). now right.
Qed.

Lemma first_code_named_least selected departments code :
  StronglySorted code_le departments ->
  first_code_named selected departments = Some code ->
  In (code, selected) departments /\
  forall code', In (code', selected) departments -> (code <= code')%Z.
Proof.
  induction 1 as [|[c n] l Hs IH Hall]; simpl; [discriminate|].
  destruct (str_eqb n selected) eqn:E.
  - apply str_eqb_eq in E. subst. intros H. injection H as ->.
    split; [now left|].
    intros code' [Heq|Hin]; [injection Heq as <-; lia|].
    rewrite Forall_forall in Hall. exact (Hall _ Hin).
  - intros H. destruct (IH H) as [Hin Hleast]. split; [now right|].
    intros code' [Heq|Hin']; [|now apply Hleast].
    injection Heq as -> ->.
    rewrite (proj2 (str_eqb_eq selected selected) eq_refl) in E. discriminate.
Qed.

Section Library.

Variable isdecimal : N -> bool.
Variable parse_number : str -> option float.

(** What [get_departments] returns, for the proofs that build on it. *)
Lemma get_departments_listing w :
  exists d departments w',
    get_departments isdecimal parse_number w = (inr departments, w') /\
    _df (self w') = Some d /\
    (forall code name,
        In (code, name) departments <->
        exists r, In r (values d) /\ c_dept_code r = code /\ c_dept_name r = name) /\
    StronglySorted code_le departments.
Proof.
  destruct (get_departments_run isdecimal parse_number w)
    as (d & w' & Hrun & Hd & _).
  eexists d, _, w'. split; [exact Hrun|]. split; [exact Hd|]. split.
  - intros code name.
    rewrite sorted_In, (unique_In pair_eqb pair_eqb_eq), in_map_iff.
    unfold department_of. split.
    + intros (r & E & Hr). injection E as <- <-. eauto.
    + intros (r & Hr & <- & <-). eauto.
  - apply Sorted_StronglySorted.
    + intros a b c. unfold code_le. lia.
    + apply AggregatorFacts.Sorted_weaken with
        (R := fun a b => Z.leb (fst a) (fst b) = true).
      * intros a b H. apply Z.leb_le in H. exact H.
      * apply sorted_Sorted with (P := fun _ => True).
        -- intros a b _ _. apply Z_leb_total.
        -- apply Forall_forall. trivial.
Qed.

(** X18. [_get_selected_dept_code] returns null for the entry
    "all departments", without touching the loader.  For any other
    selection it returns the least department code that goes by the
    selected name in the Ledger, so of two departments with one name only
    the one with the smaller code can be selected; it returns null when
    no department goes by that name. *)
Theorem selected_department_is_the_least_code :
  forall (view : DetailView) (w : World),
  exists (selected : option Z) (w' : World),
    _get_selected_dept_code isdecimal parse_number view w = (inr selected, w') /\
    (dept_var view = ALL_DEPARTMENTS -> selected = None /\ w' = w) /\
    (dept_var view <> ALL_DEPARTMENTS ->
     exists d : Ledger,
       _df (self w') = Some d /\
       (forall code,
           selected = Some code <-> least_code_named d (dept_var view) code) /\
       (selected = None <->
        forall r, In r (values d) -> c_dept_name r <> dept_var view)).
Proof.
  intros view w. unfold _get_selected_dept_code.
  destruct (str_eqb (dept_var view) ALL_DEPARTMENTS) eqn:E.
  - apply str_eqb_eq in E. exists None, w. split; [reflexivity|].
    split; [now split|]. intros H. contradiction.
  - destruct (get_departments_listing w) as (d & deps & w' & Hrun & Hd & Hin & Hs).
    rewrite (bind_returns _ Hrun).
    exists (first_code_named (dept_var view) deps), w'.
    split; [reflexivity|]. split.
    + intros H. apply str_eqb_eq in H. congruence.
    + intros _. exists d. split; [exact Hd|]. split.
      * intros code. unfold least_code_named. split.
        -- intros H. destruct (first_code_named_least _ _ _ Hs H) as [H1 H2].
           split; [now apply Hin|].
           intros r Hr Hname. apply H2. apply Hin. eauto.
        -- intros [Hex Hleast].
           destruct (first_code_named (dept_var view) deps) as [c0|] eqn:E0.
           ++ destruct (first_code_named_least _ _ _ Hs E0) as [H1 H2].
              apply Hin in H1. destruct H1 as (r0 & Hr0 & Hc0 & Hn0).
              pose proof (Hleast r0 Hr0 Hn0) as Hle.
              assert (Hin' : In (code, dept_var view) deps) by now apply Hin.
              pose proof (H2 code Hin'). f_equal. lia.
           ++ exfalso. apply (proj1 (first_code_named_none _ _) E0 code).
              now apply Hin.
      * rewrite first_code_named_none. split.
        -- intros H r Hr Hname. apply (H (c_dept_code r)). apply Hin. eauto.
        -- intros H code Hcode. apply Hin in Hcode.
           destruct Hcode as (r & Hr & _ & Hname). exact (H r Hr Hname).
Qed.

End Library.

End DetailViewExtras.

